(** * Library management service: lending, late fees and fee payment

    A shallow embedding of [library_service.py].  The service functions are
    written against the collaborators they import (the [database] module, the
    clock, the payment gateway) as programs over an event signature, so that a
    statement such as "the gateway is never contacted" is a statement about the
    calls a program makes, whatever the collaborator answers.

    Conventions:
    - money is counted in cents ([Z]); every fee the service computes is a
      multiple of 0.50, so the binary floating point of the source and its
      [round(_, 2)] are exact on these values (see [late_fee_half_dollars]);
    - text is a [string] of ASCII characters: on such text ([Py.is_ascii])
      the character-wise [Py.strip], [Py.isdigit] and [Py.len] are [str.strip],
      [str.isdigit] and [len], and the statements about text a caller chooses
      say so;
    - a date is its proleptic Gregorian ordinal, as [date.toordinal()]. *)

From Stdlib Require Import ZArith String Ascii List Lia Bool.
From stdpp Require Import base option list gmap strings pretty.

#[local] Open Scope string_scope.
#[local] Open Scope Z_scope.
#[local] Open Scope list_scope.

(** ** Python values used by the service *)

Module Py.

(** Exceptions that the service raises or catches. *)
Inductive exn : Type :=
| TypeError
| ValueError
| Exception (msg : string).

(** Outcome of a Python call: a value, or a raised exception. *)
Inductive result (A : Type) : Type :=
| Returned (a : A)
| Raised (e : exn).
Arguments Returned {A} a.
Arguments Raised {A} e.

Definition is_digit (c : ascii) : bool :=
  let n := Z.of_N (N_of_ascii c) in (48 <=? n) && (n <=? 57).

(** [str.isspace] on one ASCII character. *)
Definition is_space (c : ascii) : bool :=
  let n := Z.of_N (N_of_ascii c) in
  ((9 <=? n) && (n <=? 13)) || ((28 <=? n) && (n <=? 32)).

Definition chars (s : string) : list ascii := list_ascii_of_string s.

(** [s.isdigit()]: non-empty and made of digits, those of ASCII (Python
    counts the digits of other scripts too). *)
Definition isdigit (s : string) : bool :=
  match chars s with
  | [] => false
  | cs => forallb is_digit cs
  end.

Fixpoint lstrip (cs : list ascii) : list ascii :=
  match cs with
  | c :: cs' => if is_space c then lstrip cs' else cs
  | [] => []
  end.

(** [s.strip()], of the blanks of ASCII (Python strips the blanks of Unicode
    too, such as the no-break space). *)
Definition strip (s : string) : string :=
  string_of_list_ascii (rev (lstrip (rev (lstrip (chars s))))).

(** [len(s)]: one character of ASCII text is one [ascii]. *)
Definition len (s : string) : Z := Z.of_nat (String.length s).

(** Truth value of a string: [not s] holds of the empty string. *)
Definition truthy (s : string) : bool :=
  match s with EmptyString => false | _ => true end.

(** Truth value of [row.get(key)] for a nullable text column. *)
Definition get_truthy (v : option string) : bool :=
  match v with Some s => truthy s | None => false end.

(** [str(n).zfill(width)] for a non-negative [n]. *)
Definition zfill (width : nat) (n : Z) : string :=
  let s := pretty n in
  string_of_list_ascii (replicate (width - String.length s) "0"%char) +:+ s.

(** [f"{cents/100:.2f}"] for a non-negative amount held in cents. *)
Definition format_2f (cents : Z) : string :=
  pretty (cents / 100) +:+ "." +:+ zfill 2 (cents mod 100).

Definition dquote : string := String (ascii_of_nat 34) EmptyString.
Definition squote : string := String (ascii_of_nat 39) EmptyString.

(** [s.isascii()]: every character is below 128.  On such text [strip],
    [isdigit] and [len] above are those of [str]; outside it Python knows
    more blanks and digits and counts characters, not bytes. *)
Definition is_ascii (s : string) : bool :=
  forallb (fun c => (N_of_ascii c <? 128)%N) (chars s).

End Py.

(** ** The part of [datetime] the service uses *)

Module PyDate.

Record datetime : Type := mk_datetime {
  toordinal : Z;     (* [dt.date().toordinal()] *)
  hour : Z;
  minute : Z;
  second : Z;
  microsecond : Z
}.

(** [dt.date()], as an ordinal. *)
Definition date (dt : datetime) : Z := toordinal dt.

(** [dt + timedelta(days=n)] *)
Definition add_days (dt : datetime) (n : Z) : datetime :=
  mk_datetime (toordinal dt + n) (hour dt) (minute dt) (second dt) (microsecond dt).

Definition is_leap (y : Z) : bool :=
  (y mod 4 =? 0) && (negb (y mod 100 =? 0) || (y mod 400 =? 0)).

Definition days_in_month (y m : Z) : Z :=
  if m =? 2 then (if is_leap y then 29 else 28)
  else if (m =? 4) || (m =? 6) || (m =? 9) || (m =? 11) then 30
  else 31.

Definition days_before_year (y : Z) : Z :=
  let p := y - 1 in p * 365 + p / 4 - p / 100 + p / 400.

(** Days of the months before month [m], for a non-leap year. *)
Definition days_before_month_common (m : Z) : Z :=
  nth (Z.to_nat m) [0; 0; 31; 59; 90; 120; 151; 181; 212; 243; 273; 304; 334] 0.

Definition days_before_month (y m : Z) : Z :=
  days_before_month_common m + (if (2 <? m) && is_leap y then 1 else 0).

Definition ymd2ord (y m d : Z) : Z :=
  days_before_year y + days_before_month y m + d.

(** Ordinal to (year, month, day), after CPython's [_ord2ymd]. *)
Definition ord2ymd (ord : Z) : Z * Z * Z :=
  let n := ord - 1 in
  let n400 := n / 146097 in let n := n mod 146097 in
  let n100 := n / 36524 in let n := n mod 36524 in
  let n4 := n / 1461 in let n := n mod 1461 in
  let n1 := n / 365 in let n := n mod 365 in
  let year := n400 * 400 + 1 + n100 * 100 + n4 * 4 + n1 in
  if (n1 =? 4) || (n100 =? 4) then (year - 1, 12, 31)
  else
    let leapyear := (n1 =? 3) && (negb (n4 =? 24) || (n100 =? 3)) in
    let month := Z.shiftr (n + 50) 5 in
    let preceding :=
      days_before_month_common month + (if (2 <? month) && leapyear then 1 else 0) in
    if n <? preceding then
      let month' := month - 1 in
      let dim :=
        (if month' =? 2 then (if leapyear then 29 else 28)
         else days_in_month 1 month') in
      (year, month', n - (preceding - dim) + 1)
    else (year, month, n - preceding + 1).

(** [d.strftime("%Y-%m-%d")], which is also [date.isoformat()]. *)
Definition strftime_ymd (ord : Z) : string :=
  let '(y, m, d) := ord2ymd ord in
  Py.zfill 4 y +:+ "-" +:+ Py.zfill 2 m +:+ "-" +:+ Py.zfill 2 d.

(** [dt.isoformat()] *)
Definition isoformat (dt : datetime) : string :=
  strftime_ymd (toordinal dt) +:+ "T" +:+ Py.zfill 2 (hour dt) +:+ ":"
    +:+ Py.zfill 2 (minute dt) +:+ ":" +:+ Py.zfill 2 (second dt)
    +:+ (if microsecond dt =? 0 then EmptyString
         else "." +:+ Py.zfill 6 (microsecond dt)).

Definition digit_val (c : ascii) : Z := Z.of_N (N_of_ascii c) - 48.

(** Read exactly [n] decimal digits. *)
Fixpoint take_digits (n : nat) (acc : Z) (cs : list ascii)
  : option (Z * list ascii) :=
  match n with
  | O => Some (acc, cs)
  | S n' =>
      match cs with
      | c :: cs' =>
          if Py.is_digit c then take_digits n' (acc * 10 + digit_val c) cs'
          else None
      | [] => None
      end
  end.

Definition expect (ch : ascii) (cs : list ascii) : option (list ascii) :=
  match cs with
  | c :: cs' => if Ascii.eqb c ch then Some cs' else None
  | [] => None
  end.

(** The time of day after the separator: [HH:MM:SS] or [HH:MM:SS.ffffff]. *)
Definition parse_time (cs : list ascii) : option (Z * Z * Z * Z) :=
  '(hh, cs) ← take_digits 2 0 cs;
  cs ← expect ":"%char cs;
  '(mi, cs) ← take_digits 2 0 cs;
  cs ← expect ":"%char cs;
  '(ss, cs) ← take_digits 2 0 cs;
  '(us, cs) ← match cs with
              | [] => Some (0, [])
              | _ => cs ← expect "."%char cs; take_digits 6 0 cs
              end;
  match cs with
  | [] =>
      if (hh <? 24) && (mi <? 60) && (ss <? 60) then Some (hh, mi, ss, us)
      else None
  | _ => None
  end.

(** [datetime.fromisoformat(s)], on the formats [isoformat()] writes:
    [YYYY-MM-DD], optionally followed by one separator character and a time
    of day.  [None] stands for the [ValueError] Python raises.  Python reads
    further ISO forms, which the service never writes (a time of day without
    seconds, a UTC offset): a text it surely refuses is an [unreadable] one,
    below. *)
Definition fromisoformat (s : string) : option datetime :=
  '(y, cs) ← take_digits 4 0 (Py.chars s);
  cs ← expect "-"%char cs;
  '(m, cs) ← take_digits 2 0 cs;
  cs ← expect "-"%char cs;
  '(d, cs) ← take_digits 2 0 cs;
  if (1 <=? y) && (1 <=? m) && (m <=? 12) && (1 <=? d) && (d <=? days_in_month y m)
  then
    match cs with
    | [] => Some (mk_datetime (ymd2ord y m d) 0 0 0 0)
    | _ :: ts =>
        '(hh, mi, ss, us) ← parse_time ts;
        Some (mk_datetime (ymd2ord y m d) hh mi ss us)
    end
  else None.

(** A text that does not begin with the four digits of a year.  An ISO date
    begins with them in each form [datetime.fromisoformat] knows, so it raises
    [ValueError] on such a text, [str(None)] and a date written day first
    among them. *)
Definition unreadable (s : string) : bool :=
  match take_digits 4 0 (Py.chars s) with
  | Some _ => false
  | None => true
  end.

(** Seconds since the Unix epoch, as [int(time.time())]. *)
Definition unix_timestamp (dt : datetime) : Z :=
  (toordinal dt - 719163) * 86400 + hour dt * 3600 + minute dt * 60 + second dt.

End PyDate.


(** ** Data model *)

(** A row of the [books] table, as the dictionary [get_book_by_id] returns. *)
Module Book.
Record t : Type := mk {
  id : Z;
  title : string;
  author : string;
  isbn : string;
  total_copies : Z;
  available_copies : Z
}.
End Book.

(** A row of the [borrow_records] table.  Dates are stored as text; a [NULL]
    column is [None]. *)
Module Borrow.
Record t : Type := mk {
  patron_id : string;
  book_id : Z;
  borrow_date : string;
  due_date : option string;
  return_date : option string
}.
End Borrow.

(** What [update_borrow_record_return_date] answers, as the service tells its
    answers apart: a falsy value ([False], [None]), a row (a [dict]), or some
    other truthy value (a plain [True]), which passes [if not updated] and
    fails [isinstance(updated, dict)]. *)
Inductive row_answer : Type :=
| NoRow
| NotADict
| Row (r : Borrow.t).

(** The dictionary [calculate_late_fee_for_book] returns; [fee_amount] in
    cents. *)
Record FeeQuote : Type := mk_quote {
  fee_amount : Z;
  days_overdue : Z;
  status : string
}.

(** ** Collaborators

    The functions [library_service.py] imports from [database], the clock and
    the payment gateway, each with the type of its answer. *)

Inductive call : Type -> Type :=
| get_book_by_id (book_id : Z) : call (option Book.t)
| get_book_by_isbn (isbn : string) : call (option Book.t)
| get_patron_borrow_count (patron_id : string) : call Z
| insert_book (title author isbn : string) (total_copies available_copies : Z)
    : call bool
| insert_borrow_record (patron_id : string) (book_id : Z)
    (borrow_date due_date : PyDate.datetime) : call bool
| update_book_availability (book_id : Z) (change : Z) : call bool
| update_borrow_record_return_date (patron_id : string) (book_id : Z)
    (return_date : option PyDate.datetime) : call (Py.result row_answer)
| datetime_now : call PyDate.datetime
| process_payment (patron_id : string) (amount : Z) (description : string)
    : call (Py.result (bool * string * string)).

(** A service function: a value, or a call to a collaborator and what to do
    with its answer. *)
Inductive prog (R : Type) : Type :=
| Ret (r : R)
| Do {X : Type} (c : call X) (k : X -> prog R).
Arguments Ret {R} r.
Arguments Do {R X} c k.

Fixpoint bind {A B : Type} (p : prog A) (f : A -> prog B) : prog B :=
  match p with
  | Ret a => f a
  | Do c k => Do c (fun x => bind (k x) f)
  end.

(** [x <~ c ;; k]: call the collaborator, name its answer, go on. *)
Notation "x <~ c ;; k" := (Do c (fun x => k))
  (at level 100, c at next level, right associativity, only parsing).

(** One collaborator call of a run, with the answer it got. *)
Record event : Type := Event {
  ev_type : Type;
  ev_call : call ev_type;
  ev_answer : ev_type
}.
Arguments Event {ev_type} ev_call ev_answer.

(** An implementation of the collaborators over a state [St]. *)
Definition handler (St : Type) : Type :=
  forall X : Type, call X -> St -> X * St.

(** Run a program: its value, the final state and the calls made, in order. *)
Fixpoint run {St R : Type} (h : handler St) (p : prog R) (s : St)
  : R * St * list event :=
  match p with
  | Ret r => (r, s, [])
  | Do c k =>
      let '(x, s1) := h _ c s in
      let '(r, s2, tr) := run h (k x) s1 in
      (r, s2, Event c x :: tr)
  end.

Definition is_process_payment (e : event) : bool :=
  match ev_call e with process_payment _ _ _ => true | _ => false end.

Definition is_update_book_availability (e : event) : bool :=
  match ev_call e with update_book_availability _ _ => true | _ => false end.

Definition is_get_patron_borrow_count (e : event) : bool :=
  match ev_call e with get_patron_borrow_count _ => true | _ => false end.

Definition is_insert_book (e : event) : bool :=
  match ev_call e with insert_book _ _ _ _ _ => true | _ => false end.

Definition is_insert_borrow_record (e : event) : bool :=
  match ev_call e with insert_borrow_record _ _ _ _ => true | _ => false end.

(** ** Fee policy *)

(** Lines 176-182 of [calculate_late_fee_for_book]: the fee, in cents, for a
    number of days overdue.  $0.50 a day for the first 7 days, $1.00 a day
    after, capped at $15.00. *)
Definition late_fee (days_overdue : Z) : Z :=
  if days_overdue <=? 0 then 0
  else
    let first := Z.min days_overdue 7 * 50 in
    let rest := Z.max (days_overdue - 7) 0 * 100 in
    Z.min (first + rest) 1500.

(** [max(0, (asof_dt - due_dt).days)] *)
Definition overdue_days (asof_dt due_dt : Z) : Z := Z.max 0 (asof_dt - due_dt).

(** Lines 125-136 of [return_book_by_patron]: the inline fee calculation,
    starting from [days_overdue = 0], [fee = 0.0] and keeping them when the
    due date is missing or does not parse ([except Exception: pass]).
    [default EmptyString due_date] is [str(updated["due_date"])] for a column
    that holds a text. *)
Definition return_fee (now_dt : PyDate.datetime) (due_date : option string)
  : Z * Z :=
  if Py.get_truthy due_date then
    match PyDate.fromisoformat (default EmptyString due_date) with
    | Some due =>
        let days_overdue := Z.max 0 (PyDate.date now_dt - PyDate.date due) in
        if 0 <? days_overdue then
          let first := Z.min days_overdue 7 * 50 in
          let rest := Z.max (days_overdue - 7) 0 * 100 in
          (days_overdue, Z.min (first + rest) 1500)
        else (days_overdue, 0)
    | None => (0, 0)
    end
  else (0, 0).

(** ** Lending engine *)

(** [not patron_id or not patron_id.isdigit() or len(patron_id) != 6] *)
Definition invalid_patron_id (patron_id : string) : bool :=
  negb (Py.truthy patron_id) || negb (Py.isdigit patron_id)
  || negb (Py.len patron_id =? 6).

Definition add_book_to_catalog (title author isbn : string) (total_copies : Z)
  : prog (bool * string) :=
  if negb (Py.truthy title) || negb (Py.truthy (Py.strip title)) then
    Ret (false, "Title is required.")
  else if 200 <? Py.len (Py.strip title) then
    Ret (false, "Title must be less than 200 characters.")
  else if negb (Py.truthy author) || negb (Py.truthy (Py.strip author)) then
    Ret (false, "Author is required.")
  else if 100 <? Py.len (Py.strip author) then
    Ret (false, "Author must be less than 100 characters.")
  else if negb (Py.len isbn =? 13) || negb (Py.isdigit isbn) then
    Ret (false, "ISBN must be exactly 13 digits.")
  else if total_copies <=? 0 then
    Ret (false, "Total copies must be a positive integer.")
  else
    existing <~ get_book_by_isbn isbn ;;
    match existing with
    | Some _ =>
        Ret (true, "Book " +:+ Py.dquote +:+ Py.strip title +:+ Py.dquote
                   +:+ " has been successfully added to the catalog.")
    | None =>
        success <~ insert_book (Py.strip title) (Py.strip author) isbn
                     total_copies total_copies ;;
        if success then
          Ret (true, "Book " +:+ Py.dquote +:+ Py.strip title +:+ Py.dquote
                     +:+ " has been successfully added to the catalog.")
        else Ret (false, "Database error occurred while adding the book.")
    end.

Definition borrow_book_by_patron (patron_id : string) (book_id : Z)
  : prog (bool * string) :=
  if invalid_patron_id patron_id then
    Ret (false, "Invalid patron ID. Must be exactly 6 digits.")
  else
    book <~ get_book_by_id book_id ;;
    match book with
    | None => Ret (false, "Book not found.")
    | Some book =>
        if Book.available_copies book <=? 0 then
          Ret (false, "This book is currently not available.")
        else
          current_borrowed <~ get_patron_borrow_count patron_id ;;
          if 5 <=? current_borrowed then
            Ret (false, "You have reached the maximum borrowing limit of 5 books.")
          else
            borrow_date <~ datetime_now ;;
            let due_date := PyDate.add_days borrow_date 14 in
            borrow_success <~
              insert_borrow_record patron_id book_id borrow_date due_date ;;
            if negb borrow_success then
              Ret (false, "Database error occurred while creating borrow record.")
            else
              availability_success <~ update_book_availability book_id (-1) ;;
              if negb availability_success then
                Ret (false,
                     "Database error occurred while updating book availability.")
              else
                Ret (true,
                     "Successfully borrowed " +:+ Py.dquote +:+ Book.title book
                     +:+ Py.dquote +:+ ". Due date: "
                     +:+ PyDate.strftime_ymd (PyDate.date due_date) +:+ ".")
    end.

(** The end of [return_book_by_patron]: the message, once the return is
    recorded and the counter updated. *)
Definition return_message (book : Book.t) (now_dt : PyDate.datetime)
  (updated : row_answer) : bool * string :=
  let '(days_overdue, fee) :=
    match updated with
    | Row r => return_fee now_dt (Borrow.due_date r)
    | _ => (0, 0)
    end in
  if (0 <? days_overdue) && (0 <? fee) then
    (true, "Returned " +:+ Py.dquote +:+ Book.title book +:+ Py.dquote +:+ ". "
           +:+ pretty days_overdue +:+ " day(s) overdue. Late fee: $"
           +:+ Py.format_2f fee +:+ ".")
  else
    (true, "Returned " +:+ Py.dquote +:+ Book.title book +:+ Py.dquote
           +:+ " on time. No late fee.").

Definition return_book_by_patron (patron_id : string) (book_id : Z)
  : prog (Py.result (bool * string)) :=
  if invalid_patron_id patron_id then
    Ret (Py.Returned (false, "Invalid patron ID. Must be exactly 6 digits."))
  else
    book <~ get_book_by_id book_id ;;
    match book with
    | None => Ret (Py.Returned (false, "Book not found."))
    | Some book =>
        now_dt <~ datetime_now ;;
        updated <~
          update_borrow_record_return_date patron_id book_id (Some now_dt) ;;
        match updated with
        | Py.Raised e => Ret (Py.Raised e)
        | Py.Returned NoRow =>
            Ret (Py.Returned
                   (false, "No active borrow record found for this patron and book."))
        | Py.Returned updated =>
            fresh <~ get_book_by_id book_id ;;
            match fresh with
            | None => Ret (Py.Returned (false, "Book not found during update."))
            | Some fresh =>
                if Book.available_copies fresh <? Book.total_copies fresh then
                  ok <~ update_book_availability book_id 1 ;;
                  if negb ok then
                    Ret (Py.Returned
                           (false, "Database error while updating book availability."))
                  else Ret (Py.Returned (return_message book now_dt updated))
                else Ret (Py.Returned (return_message book now_dt updated))
            end
        end
    end.

Definition calculate_late_fee_for_book (patron_id : string) (book_id : Z)
  : prog (Py.result FeeQuote) :=
  if invalid_patron_id patron_id then
    Ret (Py.Returned (mk_quote 0 0 "Invalid patron ID. Must be exactly 6 digits."))
  else
    book <~ get_book_by_id book_id ;;
    match book with
    | None => Ret (Py.Returned (mk_quote 0 0 "Book not found."))
    | Some _ =>
        answer <~ update_borrow_record_return_date patron_id book_id None ;;
        match answer with
        | Py.Raised (Py.ValueError as e) | Py.Raised (Py.Exception _ as e) =>
            Ret (Py.Raised e)
        | Py.Raised Py.TypeError | Py.Returned NoRow | Py.Returned NotADict =>
            Ret (Py.Returned
                   (mk_quote 0 0
                      "No active/known borrow record or due date unavailable."))
        | Py.Returned (Row row) =>
            if negb (Py.get_truthy (Borrow.due_date row)) then
              Ret (Py.Returned
                     (mk_quote 0 0
                        "No active/known borrow record or due date unavailable."))
            else
              match PyDate.fromisoformat (default EmptyString (Borrow.due_date row)) with
              | None => Ret (Py.Raised Py.ValueError)
              | Some due =>
                  let due_dt := PyDate.date due in
                  let finish (asof_dt : Z) (status : string) :=
                    let days_overdue := overdue_days asof_dt due_dt in
                    Py.Returned (mk_quote (late_fee days_overdue) days_overdue status) in
                  if Py.get_truthy (Borrow.return_date row) then
                    match PyDate.fromisoformat
                            (default EmptyString (Borrow.return_date row)) with
                    | Some returned =>
                        Ret (finish (PyDate.date returned)
                               "Returned; historical fee at return date calculated.")
                    | None =>
                        today <~ datetime_now ;;
                        Ret (finish (PyDate.date today)
                               "Returned; historical fee at return date calculated.")
                    end
                  else
                    today <~ datetime_now ;;
                    Ret (finish (PyDate.date today)
                           "Not yet returned; fee calculated as of today.")
              end
        end
    end.

(** ** Storage and gateway *)

Module Storage.

(** Modelled from the spec: the [database] module is not part of the
    sources; this is the storage contract of the specification (section 6)
    over the data model of section 3.  [books] is keyed by the book id,
    [borrow_records] is in insertion order.  [now] is the clock read by
    [datetime.now()].  [write_ok] says, for the writes to come, whether the
    store accepts them ([insert_book], [update_book_availability] and
    [insert_borrow_record] answer a [bool]); a write the store refuses
    changes nothing, and an empty list refuses none. *)
Record t : Type := mk {
  books : gmap Z Book.t;
  borrow_records : list Borrow.t;
  now : PyDate.datetime;
  write_ok : list bool
}.

(** Modelled from the spec: the store before any operation. *)
Definition empty (clock : PyDate.datetime) : t := mk ∅ [] clock [].

(** Modelled from the spec: whether the store accepts the next write (the
    [bool] a write of section 6 answers). *)
Definition accepts (w : t) : bool := List.hd true (write_ok w).

(** Modelled from the spec: the fates left once a write is done. *)
Definition later (w : t) : list bool := List.tl (write_ok w).

(** Modelled from the spec: an active borrow record has no return date
    (glossary). *)
Definition is_active (r : Borrow.t) : bool :=
  match Borrow.return_date r with None => true | Some _ => false end.

(** Modelled from the spec: the records of a patron for a book. *)
Definition is_for (patron_id : string) (book_id : Z) (r : Borrow.t) : bool :=
  String.eqb (Borrow.patron_id r) patron_id && (Borrow.book_id r =? book_id).

(** Modelled from the spec: [getPatronBorrowCount], the number of active
    borrow records of the patron. *)
Definition patron_borrow_count (patron_id : string) (rs : list Borrow.t) : Z :=
  Z.of_nat
    (length
       (List.filter
          (fun r => String.eqb (Borrow.patron_id r) patron_id && is_active r) rs)).

(** Modelled from the spec: [getBookByIsbn]. *)
Definition book_by_isbn (isbn : string) (bs : gmap Z Book.t) : option Book.t :=
  snd <$> List.find (fun kb => String.eqb (Book.isbn (snd kb)) isbn)
            (map_to_list bs).

(** Modelled from the spec: the id of the next book, stable and not in use
    (section 3). *)
Definition next_book_id (bs : gmap Z Book.t) : Z :=
  1 + map_fold (fun k _ acc => Z.max k acc) 0 bs.

(** Modelled from the spec: [updateBookAvailability(bookId, delta)] adds
    [delta] to the counter, with no clamping of its own. *)
Definition add_copies (change : Z) (b : Book.t) : Book.t :=
  Book.mk (Book.id b) (Book.title b) (Book.author b) (Book.isbn b)
    (Book.total_copies b) (Book.available_copies b + change).

(** Modelled from the spec: a return sets [return_date] and nothing else. *)
Definition set_return_date (date : string) (r : Borrow.t) : Borrow.t :=
  Borrow.mk (Borrow.patron_id r) (Borrow.book_id r) (Borrow.borrow_date r)
    (Borrow.due_date r) (Some date).

(** Modelled from the spec: [updateBorrowRecordReturnDate] with a date marks
    the active record of the patron for the book as returned and answers it,
    or answers false when there is none. *)
Fixpoint mark_returned (patron_id : string) (book_id : Z) (date : string)
  (rs : list Borrow.t) : option Borrow.t * list Borrow.t :=
  match rs with
  | [] => (None, [])
  | r :: rs' =>
      if is_for patron_id book_id r && is_active r then
        (Some (set_return_date date r), set_return_date date r :: rs')
      else
        let '(found, rs'') := mark_returned patron_id book_id date rs' in
        (found, r :: rs'')
  end.

(** Modelled from the spec: [updateBorrowRecordReturnDate] with no date reads
    the active record of the patron for the book, or else the most recent
    one, and changes nothing. *)
Definition read_record (patron_id : string) (book_id : Z) (rs : list Borrow.t)
  : option Borrow.t :=
  match List.find (fun r => is_for patron_id book_id r && is_active r) rs with
  | Some r => Some r
  | None => List.find (is_for patron_id book_id) (rev rs)
  end.

(** Modelled from the spec: the simulated gateway's [processPayment]
    (section 4.3); amounts in cents. *)
Definition gateway_process_payment (clock : PyDate.datetime)
  (patron_id : string) (amount : Z) : bool * string * string :=
  if amount <=? 0 then (false, EmptyString, "invalid amount")
  else if 100000 <? amount then (false, EmptyString, "exceeds limit")
  else if negb (Py.isdigit patron_id && (Py.len patron_id =? 6)) then
    (false, EmptyString, "invalid patron id")
  else
    (true, "txn_" +:+ patron_id +:+ "_" +:+ pretty (PyDate.unix_timestamp clock),
     "payment processed successfully").

(** Modelled from the spec: the collaborators, over the store. *)
Definition handle : handler t := fun X c w =>
  match c in call X return X * t with
  | get_book_by_id book_id => (books w !! book_id, w)
  | get_book_by_isbn isbn => (book_by_isbn isbn (books w), w)
  | get_patron_borrow_count patron_id =>
      (patron_borrow_count patron_id (borrow_records w), w)
  | insert_book title author isbn total_copies available_copies =>
      match book_by_isbn isbn (books w) with
      | Some _ => (false, mk (books w) (borrow_records w) (now w) (later w))
      | None =>
          if accepts w then
            let id := next_book_id (books w) in
            let b := Book.mk id title author isbn total_copies available_copies in
            (true, mk (<[id := b]> (books w)) (borrow_records w) (now w) (later w))
          else (false, mk (books w) (borrow_records w) (now w) (later w))
      end
  | insert_borrow_record patron_id book_id borrow_date due_date =>
      if accepts w then
        let r := Borrow.mk patron_id book_id (PyDate.isoformat borrow_date)
                   (Some (PyDate.isoformat due_date)) None in
        (true, mk (books w) (borrow_records w ++ [r]) (now w) (later w))
      else (false, mk (books w) (borrow_records w) (now w) (later w))
  | update_book_availability book_id change =>
      if accepts w then
        (true, mk (alter (add_copies change) book_id (books w))
                 (borrow_records w) (now w) (later w))
      else (false, mk (books w) (borrow_records w) (now w) (later w))
  | update_borrow_record_return_date patron_id book_id (Some date) =>
      let '(found, rs) :=
        mark_returned patron_id book_id (PyDate.isoformat date) (borrow_records w) in
      (Py.Returned (from_option Row NoRow found),
       mk (books w) rs (now w) (write_ok w))
  | update_borrow_record_return_date patron_id book_id None =>
      (Py.Returned
         (from_option Row NoRow (read_record patron_id book_id (borrow_records w))),
       w)
  | datetime_now => (now w, w)
  | process_payment patron_id amount _ =>
      (Py.Returned (gateway_process_payment (now w) patron_id amount), w)
  end.

End Storage.

(** ** Payment orchestrator *)

(** Modelled from the spec: [pay_late_fees] is not part of the sources (its
    tests are); this is section 4.4 of the specification, from the quote on.
    [fee_field] is the quote's [fee_amount], [None] when the quote lacks it.
    The gateway is the collaborator behind [process_payment]; the charge
    description is the one the tests expect. *)
Definition pay_quoted_fee (fee_field : option Z) (patron_id : string)
  (book_id : Z) : prog (bool * string * option string) :=
  match fee_field with
  | None => Ret (false, "unable to calculate late fee", None)
  | Some fee_amount =>
      if fee_amount =? 0 then Ret (false, "no late fees owed", None)
      else
        book <~ get_book_by_id book_id ;;
        match book with
        | None => Ret (false, "book not found", None)
        | Some book =>
            answer <~ process_payment patron_id fee_amount
                        ("Late fees for " +:+ Py.squote +:+ Book.title book
                         +:+ Py.squote) ;;
            match answer with
            | Py.Raised _ => Ret (false, "payment error", None)
            | Py.Returned (true, transaction_id, message) =>
                Ret (true, message, Some transaction_id)
            | Py.Returned (false, _, message) => Ret (false, message, None)
            end
        end
  end.

(** Modelled from the spec: [pay_late_fees] computes the fee with
    [calculate_late_fee_for_book], then settles it.  The specification does
    not say what happens when the quote itself raises; as in Python, the
    exception goes to the caller. *)
Definition pay_late_fees (patron_id : string) (book_id : Z)
  : prog (Py.result (bool * string * option string)) :=
  bind (calculate_late_fee_for_book patron_id book_id)
    (fun quote =>
       match quote with
       | Py.Raised e => Ret (Py.Raised e)
       | Py.Returned fee_info =>
           bind (pay_quoted_fee (Some (fee_amount fee_info)) patron_id book_id)
             (fun outcome => Ret (Py.Returned outcome))
       end).

(** ** Sequences of operations on the store *)

Inductive operation : Type :=
| AddBook (title author isbn : string) (total_copies : Z)
| BorrowBook (patron_id : string) (book_id : Z)
| ReturnBook (patron_id : string) (book_id : Z).

(** One operation, with the time it happens at and the fate of its writes. *)
Record step : Type := Step {
  at_time : PyDate.datetime;
  writes : list bool;
  op : operation
}.

Definition final_state {St R : Type} (out : R * St * list event) : St :=
  snd (fst out).

Definition outcome {St R : Type} (out : R * St * list event) : R :=
  fst (fst out).

Definition trace {St R : Type} (out : R * St * list event) : list event :=
  snd out.

(** A run that never makes a call of the given kind. *)
Definition never (kind : event -> bool) (tr : list event) : Prop :=
  forallb (fun e => negb (kind e)) tr = true.

Definition apply (w : Storage.t) (st : step) : Storage.t :=
  let w0 :=
    Storage.mk (Storage.books w) (Storage.borrow_records w) (at_time st) (writes st) in
  match op st with
  | AddBook title author isbn total_copies =>
      final_state
        (run Storage.handle (add_book_to_catalog title author isbn total_copies) w0)
  | BorrowBook patron_id book_id =>
      final_state (run Storage.handle (borrow_book_by_patron patron_id book_id) w0)
  | ReturnBook patron_id book_id =>
      final_state (run Storage.handle (return_book_by_patron patron_id book_id) w0)
  end.

(** The states after each operation of a sequence. *)
Fixpoint states (w : Storage.t) (steps : list step) : list Storage.t :=
  match steps with
  | [] => []
  | st :: rest => let w' := apply w st in w' :: states w' rest
  end.

(** [0 <= available_copies <= total_copies], for every book of the store. *)
Definition copies_in_bounds (w : Storage.t) : Prop :=
  map_Forall
    (fun _ b => 0 <= Book.available_copies b <= Book.total_copies b)
    (Storage.books w).

(** ** Sample stores *)

Module Sample.

Definition clock : PyDate.datetime := PyDate.mk_datetime 739555 13 5 9 0.

(** No copy left. *)
Definition book_out : Book.t :=
  Book.mk 1 "Dune" "Frank Herbert" "9780441172719" 1 0.

(** Two copies of three on the shelf. *)
Definition book_in : Book.t :=
  Book.mk 2 "Clean Code" "Robert C. Martin" "1234567890123" 3 2.

Definition loan (patron_id : string) (book_id : Z) : Borrow.t :=
  Borrow.mk patron_id book_id "2025-10-27T10:00:00" (Some "2025-11-10T10:00:00")
    None.

Definition shelf : gmap Z Book.t := <[2 := book_in]> {[1 := book_out]}.

(** Patron 123456 holds five books. *)
Definition at_limit : Storage.t :=
  Storage.mk shelf (replicate 5 (loan "123456" 7)) clock [].

(** The next write succeeds, the one after it fails. *)
Definition second_write_fails : Storage.t :=
  Storage.mk shelf [] clock [true; false].

(** The next write fails. *)
Definition first_write_fails : Storage.t :=
  Storage.mk shelf [] clock [false].

(** Book 2 was lent to 111111 and came back ten days late; 222222 holds it,
    five days past due; the loan of 333333 has a due date that is not in
    ISO format; the loan of 444444 is not due yet. *)
Definition lending : Storage.t :=
  Storage.mk shelf
    [ Borrow.mk "111111" 2 "2025-10-01T10:00:00" (Some "2025-10-15T10:00:00")
        (Some "2025-10-25T16:30:00");
      Borrow.mk "222222" 2 "2025-10-12T10:00:00" (Some "2025-10-26T10:00:00") None;
      Borrow.mk "333333" 2 "2025-10-12T10:00:00" (Some "26/10/2025") None;
      Borrow.mk "444444" 2 "2025-10-30T10:00:00" (Some "2025-11-13T10:00:00") None ]
    clock [].

Definition book_full : Book.t :=
  Book.mk 3 "Refactoring" "Martin Fowler" "1111111111111" 1 1.

(** A loan of book 3 is recorded, and its counter is at its total (the state
    a borrow leaves when its availability update is refused). *)
Definition counter_not_decremented : Storage.t :=
  Storage.mk {[3 := book_full]} [loan "123456" 3] clock [].

(** A day at the desk: a book is added, lent, returned; returned again;
    lent while the store refuses the second write; added again. *)
Definition day : list step :=
  [ Step clock [] (AddBook "Clean Code" "Robert C. Martin" "1234567890123" 3);
    Step clock [] (BorrowBook "111111" 1);
    Step (PyDate.add_days clock 24) [] (ReturnBook "111111" 1);
    Step (PyDate.add_days clock 24) [] (ReturnBook "111111" 1);
    Step (PyDate.add_days clock 25) [true; false] (BorrowBook "222222" 1);
    Step (PyDate.add_days clock 26) [] (ReturnBook "222222" 1);
    Step (PyDate.add_days clock 26) []
      (AddBook "Clean Code" "Robert C. Martin" "1234567890123" 3) ].


End Sample.

(** ** The fee formula of the specification *)

(** The fee of section 4.1, in the words of the specification, in cents:
    zero at zero days, else
    [min(min(daysOverdue, 7) * 0.50 + max(daysOverdue - 7, 0) * 1.00, 15.00)]. *)
Definition fee_policy_formula (daysOverdue : Z) : Z :=
  if daysOverdue =? 0 then 0
  else Z.min (Z.min daysOverdue 7 * 50 + Z.max (daysOverdue - 7) 0 * 100) 1500.

(** The input [addBook] accepts, in the words of the specification
    (section 4.2): title non-blank and at most 200 characters, author
    non-blank and at most 100 characters, ISBN exactly 13 digits, a positive
    number of copies; lengths are those of the text without the blanks around
    it.  [valid_book_input_passes] and [add_rejects_invalid_input] relate it
    to the checks of [add_book_to_catalog]. *)
Definition valid_book_input (title author isbn : string) (total_copies : Z)
  : bool :=
  Py.truthy (Py.strip title) && (Py.len (Py.strip title) <=? 200)
  && Py.truthy (Py.strip author) && (Py.len (Py.strip author) <=? 100)
  && (Py.len isbn =? 13) && Py.isdigit isbn
  && (0 <? total_copies).

(** ** Catalog search and patron report *)

(** More of [str]: [lower] and the substring test [in]. *)
Module PyStr.

Definition lower_char (c : ascii) : ascii :=
  let n := N_of_ascii c in
  if ((65 <=? n) && (n <=? 90))%N then ascii_of_N (n + 32) else c.

(** [s.lower()] *)
Definition lower (s : string) : string :=
  string_of_list_ascii (map lower_char (Py.chars s)).

Fixpoint starts_with (needle hay : list ascii) : bool :=
  match needle, hay with
  | [], _ => true
  | a :: needle', b :: hay' => Ascii.eqb a b && starts_with needle' hay'
  | _ :: _, [] => false
  end.

Fixpoint occurs_in (needle hay : list ascii) : bool :=
  starts_with needle hay
  || match hay with
     | [] => false
     | _ :: hay' => occurs_in needle hay'
     end.

(** [needle in hay] *)
Definition contains (needle hay : string) : bool :=
  occurs_in (Py.chars needle) (Py.chars hay).

End PyStr.

(** A row of [get_patron_borrowed_books].  Its [due_date] is a [datetime]
    ([hasattr(rec["due_date"], "date")]) or some other value, kept as the text
    [str(rec["due_date"])]. *)
Module Loan.
Inductive due_value : Type :=
| DueDatetime (dt : PyDate.datetime)
| DueOther (text : string).

Record t : Type := mk {
  book_id : Z;
  title : string;
  due_date : due_value
}.
End Loan.

(** An entry of [currently_borrowed] in the patron report; [late_fee] in
    cents. *)
Module Entry.
Record t : Type := mk {
  book_id : Z;
  title : string;
  due_date : string;
  days_overdue : Z;
  late_fee : Z
}.
End Entry.

(** The dictionary [get_patron_status_report] returns, over the rows [H] of
    the borrowing history, which the report passes on as they are. *)
Module Report.
Record t (H : Type) : Type := mk {
  patron_id : string;
  currently_borrowed : list Entry.t;
  total_late_fees_owed : Z;
  num_currently_borrowed : Z;
  history : list H;
  status : string
}.
Arguments mk {H} _ _ _ _ _ _.
Arguments patron_id {H} _.
Arguments currently_borrowed {H} _.
Arguments total_late_fees_owed {H} _.
Arguments num_currently_borrowed {H} _.
Arguments history {H} _.
Arguments status {H} _.
End Report.

(** The read-only functions [library_service.py] imports from [database], and
    the clock.  A list answer may be falsy ([None]), which the service reads
    as the empty list ([... or []]). *)
Inductive query (H : Type) : Type -> Type :=
| get_all_books : query H (option (list Book.t))
| get_patron_borrowed_books (patron_id : string) : query H (option (list Loan.t))
| get_patron_borrow_history (patron_id : string) : query H (option (list H))
| clock_now : query H PyDate.datetime.
Arguments get_all_books {H}.
Arguments get_patron_borrowed_books {H} patron_id.
Arguments get_patron_borrow_history {H} patron_id.
Arguments clock_now {H}.

(** A read-only service function: a value, or a query and what to do with its
    answer. *)
Inductive reading (H R : Type) : Type :=
| Done (r : R)
| Ask {X : Type} (q : query H X) (k : X -> reading H R).
Arguments Done {H R} r.
Arguments Ask {H R X} q k.

Notation "x <~? q ;; k" := (Ask q (fun x => k))
  (at level 100, q at next level, right associativity, only parsing).

(** One query of a run, with its answer. *)
Record asked (H : Type) : Type := Asked {
  asked_type : Type;
  asked_query : query H asked_type;
  asked_answer : asked_type
}.
Arguments Asked {H asked_type} asked_query asked_answer.

(** An implementation of the queries over a state [St]. *)
Definition library (H St : Type) : Type :=
  forall X : Type, query H X -> St -> X * St.

(** Run a read-only function: its value, the final state and the queries
    made, in order. *)
Fixpoint consult {H St R : Type} (lib : library H St) (p : reading H R) (s : St)
  : R * St * list (asked H) :=
  match p with
  | Done r => (r, s, [])
  | Ask q k =>
      let '(x, s1) := lib _ q s in
      let '(r, s2, qs) := consult lib (k x) s1 in
      (r, s2, Asked q x :: qs)
  end.

(** [search_books_in_catalog]; [search_term] is [None] or a text
    ([search_term or ""]). *)
Definition search_books_in_catalog {H : Type} (search_term : option string)
  (search_type : string) : reading H (list Book.t) :=
  let q := Py.strip (default EmptyString search_term) in
  if negb (Py.truthy q) then Done []
  else
    answer <~? get_all_books ;;
    let books := default [] answer in
    if String.eqb search_type "isbn" then
      Done (List.filter (fun b => String.eqb (Py.strip (Book.isbn b)) q) books)
    else if String.eqb search_type "title" then
      let ql := PyStr.lower q in
      Done (List.filter
              (fun b => PyStr.contains ql (PyStr.lower (Book.title b))) books)
    else if String.eqb search_type "author" then
      let ql := PyStr.lower q in
      Done (List.filter
              (fun b => PyStr.contains ql (PyStr.lower (Book.author b))) books)
    else
      let ql := PyStr.lower q in
      Done (List.filter
              (fun b => PyStr.contains ql (PyStr.lower (Book.title b))
                        || PyStr.contains ql (PyStr.lower (Book.author b)))
              books).

(** The due date of an active loan, line 245 of [get_patron_status_report]:
    [rec["due_date"].date()] for a [datetime], else the date read from
    [str(rec["due_date"])]; [None] stands for the [ValueError] of
    [datetime.fromisoformat]. *)
Definition loan_due (rec : Loan.t) : option Z :=
  match Loan.due_date rec with
  | Loan.DueDatetime dt => Some (PyDate.date dt)
  | Loan.DueOther text => PyDate.date <$> PyDate.fromisoformat text
  end.

(** An active loan whose due date is neither a [datetime] nor a text that
    begins with a year: line 245 raises [ValueError] on it. *)
Definition due_unreadable (rec : Loan.t) : bool :=
  match Loan.due_date rec with
  | Loan.DueDatetime _ => false
  | Loan.DueOther text => PyDate.unreadable text
  end.

(** The loop of [get_patron_status_report] over the active loans, lines
    244-262, from the entries and the total so far. *)
Fixpoint report_loans (today : Z) (active : list Loan.t)
  (currently_borrowed : list Entry.t) (total_fees : Z)
  : Py.result (list Entry.t * Z) :=
  match active with
  | [] => Py.Returned (currently_borrowed, total_fees)
  | rec :: more =>
      match loan_due rec with
      | None => Py.Raised Py.ValueError
      | Some due =>
          let days_overdue := Z.max 0 (today - due) in
          let fee :=
            if days_overdue <=? 0 then 0
            else
              let first := Z.min days_overdue 7 * 50 in
              let rest := Z.max (days_overdue - 7) 0 * 100 in
              Z.min (first + rest) 1500 in
          report_loans today more
            (currently_borrowed
             ++ [Entry.mk (Loan.book_id rec) (Loan.title rec)
                   (PyDate.strftime_ymd due) days_overdue fee])
            (total_fees + fee)
      end
  end.

Definition get_patron_status_report {H : Type} (patron_id : string)
  : reading H (Py.result (Report.t H)) :=
  if invalid_patron_id patron_id then
    Done (Py.Returned
            (Report.mk patron_id [] 0 0 []
               "Invalid patron ID. Must be exactly 6 digits."))
  else
    active <~? get_patron_borrowed_books patron_id ;;
    now_dt <~? clock_now ;;
    match report_loans (PyDate.date now_dt) (default [] active) [] 0 with
    | Py.Raised e => Done (Py.Raised e)
    | Py.Returned (currently_borrowed, total_fees) =>
        history <~? get_patron_borrow_history patron_id ;;
        Done (Py.Returned
                (Report.mk patron_id currently_borrowed total_fees
                   (Z.of_nat (length currently_borrowed))
                   (default [] history) "Complete"))
    end.

(** A library that answers from a fixed catalog, fixed loans, a fixed history
    and a fixed clock. *)
Definition fixed_library {H : Type} (books : option (list Book.t))
  (loans : option (list Loan.t)) (past : option (list H))
  (clock : PyDate.datetime) : library H unit :=
  fun X q s =>
    match q in query _ X return X * unit with
    | get_all_books => (books, s)
    | get_patron_borrowed_books _ => (loans, s)
    | get_patron_borrow_history _ => (past, s)
    | clock_now => (clock, s)
    end.

(** The value, the final state and the queries of a read-only run. *)
Definition value_of {H St R : Type} (out : R * St * list (asked H)) : R :=
  fst (fst out).

Definition state_of {H St R : Type} (out : R * St * list (asked H)) : St :=
  snd (fst out).

Definition queries_of {H St R : Type} (out : R * St * list (asked H))
  : list (asked H) :=
  snd out.

Definition is_get_patron_borrow_history {H : Type} (a : asked H) : bool :=
  match asked_query H a with get_patron_borrow_history _ => true | _ => false end.

(** The sum of the late fees of the entries of a report. *)
Definition fees_total (entries : list Entry.t) : Z :=
  fold_right (fun e acc => Entry.late_fee e + acc) 0 entries.

(** The entry the report makes of an active loan due on [due], on the day
    [today]. *)
Definition entry_of (today : Z) (rec : Loan.t) (due : Z) : Entry.t :=
  Entry.mk (Loan.book_id rec) (Loan.title rec) (PyDate.strftime_ymd due)
    (overdue_days today due) (late_fee (overdue_days today due)).

(** Two active loans of a patron: one due five days before [Sample.clock],
    held as a [datetime], one due in ten days, held as text. *)
Definition sample_loans : list Loan.t :=
  [ Loan.mk 2 "Clean Code" (Loan.DueDatetime (PyDate.mk_datetime 739550 10 0 0 0));
    Loan.mk 3 "Refactoring" (Loan.DueOther "2025-11-10T10:00:00") ].

(** The same loans and a third whose due date is not in ISO format. *)
Definition unreadable_loans : list Loan.t :=
  sample_loans ++ [Loan.mk 2 "Clean Code" (Loan.DueOther "26/10/2025")].

(** The calls that change the store or charge the patron: the inserts, the
    availability update, the return-date update when given a date, and the
    payment. *)
Definition is_write (e : event) : bool :=
  match ev_call e with
  | insert_book _ _ _ _ _ => true
  | insert_borrow_record _ _ _ _ => true
  | update_book_availability _ _ => true
  | update_borrow_record_return_date _ _ (Some _) => true
  | process_payment _ _ _ => true
  | _ => false
  end.

(** No patron holds more than five active borrow records. *)
Definition loans_within_limit (w : Storage.t) : Prop :=
  forall patron_id : string,
    Storage.patron_borrow_count patron_id (Storage.borrow_records w) <= 5.

(** * Properties *)

(** ** Dates *)

Example iso_roundtrip_sample :
  PyDate.fromisoformat (PyDate.isoformat (PyDate.mk_datetime 739555 13 5 9 0))
  = Some (PyDate.mk_datetime 739555 13 5 9 0)
  /\ PyDate.isoformat (PyDate.mk_datetime 739555 13 5 9 0) = "2025-10-31T13:05:09"
  /\ PyDate.fromisoformat "2024-02-30" = None
  /\ PyDate.fromisoformat "2024-02-29" = Some (PyDate.mk_datetime 738945 0 0 0 0)
  /\ PyDate.strftime_ymd 738945 = "2024-02-29"
  /\ PyDate.fromisoformat "not-a-date" = None.
Proof. vm_compute. repeat split. Qed.

(** A text that does not begin with a year is not read as a date. *)
Lemma unreadable_not_iso (text : string) :
  PyDate.unreadable text = true -> PyDate.fromisoformat text = None.
Proof.
  unfold PyDate.unreadable, PyDate.fromisoformat.
  destruct (PyDate.take_digits 4 0 (Py.chars text)); [discriminate | reflexivity].
Qed.

(** ** Fee policy *)

(** Every fee is a whole number of half dollars: the source's floats hold it
    exactly and [round(fee, 2)] leaves it as it is. *)
Lemma late_fee_half_dollars (days_overdue : Z) : (50 | late_fee days_overdue).
Proof.
  unfold late_fee. destruct (days_overdue <=? 0) eqn:E.
  - exists 0. reflexivity.
  - apply Z.leb_gt in E.
    destruct (Z.le_gt_cases days_overdue 7) as [Hle | Hgt].
    + exists days_overdue. cbn zeta. lia.
    + destruct (Z.le_gt_cases days_overdue 18) as [Hle' | Hgt'].
      * exists (2 * days_overdue - 7). cbn zeta. lia.
      * exists 30. cbn zeta. lia.
Qed.

Lemma late_fee_nonneg (days_overdue : Z) : 0 <= late_fee days_overdue.
Proof. unfold late_fee. destruct (days_overdue <=? 0) eqn:E; cbn zeta; lia. Qed.

Lemma late_fee_mono (d1 d2 : Z) : d1 <= d2 -> late_fee d1 <= late_fee d2.
Proof.
  intros H. unfold late_fee.
  destruct (d1 <=? 0) eqn:E1, (d2 <=? 0) eqn:E2; cbn zeta; lia.
Qed.

Lemma late_fee_cap (days_overdue : Z) : late_fee days_overdue <= 1500.
Proof. unfold late_fee. destruct (days_overdue <=? 0); cbn zeta; lia. Qed.

(** The inline calculation of [return_book_by_patron] is the fee policy of
    [calculate_late_fee_for_book] on a due date that parses. *)
Lemma return_fee_parsed (now_dt due : PyDate.datetime) (due_text : string) :
  Py.truthy due_text = true ->
  PyDate.fromisoformat due_text = Some due ->
  return_fee now_dt (Some due_text)
  = (overdue_days (PyDate.date now_dt) (PyDate.date due),
     late_fee (overdue_days (PyDate.date now_dt) (PyDate.date due))).
Proof.
  intros Ht Hp. unfold return_fee, late_fee, overdue_days.
  change (default EmptyString (Some due_text)) with due_text.
  cbn [Py.get_truthy]. rewrite Ht, Hp.
  set (d := Z.max 0 (PyDate.date now_dt - PyDate.date due)).
  destruct (0 <? d) eqn:E1, (d <=? 0) eqn:E2; try reflexivity; lia.
Qed.

(** C2.  For every non-negative number of days overdue, the fee of
    [calculate_late_fee_for_book] ([late_fee]) and the fee [return_book_by_patron]
    computes inline ([return_fee]) are the formula of the fee policy: 0.00 at
    zero days, else [min(min(d, 7) * 0.50 + max(d - 7, 0) * 1.00, 15.00)];
    10 days overdue cost exactly 6.50. *)
Theorem late_fee_is_fee_policy_formula (d : Z) :
  0 <= d ->
  late_fee d = fee_policy_formula d
  /\ (forall (now_dt due : PyDate.datetime) (due_text : string),
        Py.truthy due_text = true ->
        PyDate.fromisoformat due_text = Some due ->
        overdue_days (PyDate.date now_dt) (PyDate.date due) = d ->
        return_fee now_dt (Some due_text) = (d, fee_policy_formula d))
  /\ (d = 0 -> late_fee d = 0)
  /\ (d = 10 -> late_fee d = 650).
Proof.
  intros Hd.
  assert (Hf : late_fee d = fee_policy_formula d).
  { unfold late_fee, fee_policy_formula.
    destruct (d <=? 0) eqn:E1, (d =? 0) eqn:E2; cbn zeta; try reflexivity; lia. }
  split; [exact Hf |]. split.
  - intros now_dt due due_text Ht Hp Hdays.
    rewrite (return_fee_parsed _ _ _ Ht Hp), Hdays, Hf. reflexivity.
  - split; intros ->; reflexivity.
Qed.

Lemma late_fee_is_fee_policy_formula_witness :
  0 <= 10
  /\ late_fee 10 = fee_policy_formula 10
  /\ return_fee (PyDate.mk_datetime 739555 9 0 0 0) (Some "2025-10-21T09:00:00")
     = (10, fee_policy_formula 10)
  /\ late_fee 10 = 650.
Proof.
  assert (H : 0 <= 10) by lia.
  destruct (late_fee_is_fee_policy_formula 10 H) as (Hf & Hr & _ & H10).
  split; [exact H |]. split; [exact Hf |]. split.
  - apply (Hr _ (PyDate.mk_datetime 739545 9 0 0 0)); reflexivity.
  - apply H10. reflexivity.
Defined.

(** The quote of [calculate_late_fee_for_book] at two readings of the clock,
    the store being the same: the later quote is not lower. *)
Lemma quote_grows_with_clock (bs : gmap Z Book.t) (rs : list Borrow.t)
  (now1 now2 : PyDate.datetime) (f1 f2 : list bool)
  (patron_id : string) (book_id : Z) :
  PyDate.date now1 <= PyDate.date now2 ->
  match
    outcome (run Storage.handle (calculate_late_fee_for_book patron_id book_id)
               (Storage.mk bs rs now1 f1)),
    outcome (run Storage.handle (calculate_late_fee_for_book patron_id book_id)
               (Storage.mk bs rs now2 f2))
  with
  | Py.Returned q1, Py.Returned q2 => fee_amount q1 <= fee_amount q2 <= 1500
  | Py.Raised e1, Py.Raised e2 => e1 = e2
  | _, _ => False
  end.
Proof.
  intros Hclock. unfold calculate_late_fee_for_book.
  destruct (invalid_patron_id patron_id); [cbn; lia |].
  cbn [run Storage.handle Storage.books Storage.borrow_records Storage.now].
  destruct (bs !! book_id) as [book |]; [| cbn; lia].
  cbn [run Storage.handle Storage.books Storage.borrow_records Storage.now].
  destruct (Storage.read_record patron_id book_id rs) as [row |];
    cbn [from_option]; [| cbn; lia].
  destruct (negb (Py.get_truthy (Borrow.due_date row))); [cbn; lia |].
  destruct (PyDate.fromisoformat (default EmptyString (Borrow.due_date row)))
    as [due |]; [| reflexivity].
  assert (Hcap := late_fee_cap).
  destruct (Py.get_truthy (Borrow.return_date row)).
  - destruct (PyDate.fromisoformat (default EmptyString (Borrow.return_date row)))
      as [returned |];
      cbn [run Storage.handle Storage.now outcome fst fee_amount].
    + split; [lia | apply Hcap].
    + split; [apply late_fee_mono; unfold overdue_days; lia | apply Hcap].
  - cbn [run Storage.handle Storage.now outcome fst fee_amount].
    split; [apply late_fee_mono; unfold overdue_days; lia | apply Hcap].
Qed.

(** C8.  For a fixed due date the fee does not decrease when the as-of date
    moves forward, in [calculate_late_fee_for_book] and in the inline
    calculation of [return_book_by_patron]; and no number of days overdue
    costs more than 15.00.  So the quote of [calculate_late_fee_for_book] on
    one store at a later clock is not lower, and is at most 15.00. *)
Theorem late_fee_monotone_and_capped :
  (forall due_dt asof1 asof2 : Z,
     asof1 <= asof2 ->
     late_fee (overdue_days asof1 due_dt) <= late_fee (overdue_days asof2 due_dt))
  /\ (forall (due_date : option string) (now1 now2 : PyDate.datetime),
        PyDate.date now1 <= PyDate.date now2 ->
        snd (return_fee now1 due_date) <= snd (return_fee now2 due_date))
  /\ (forall days_overdue : Z, late_fee days_overdue <= 1500)
  /\ (forall (due_date : option string) (now_dt : PyDate.datetime),
        snd (return_fee now_dt due_date) <= 1500)
  /\ (forall (bs : gmap Z Book.t) (rs : list Borrow.t)
        (now1 now2 : PyDate.datetime) (f1 f2 : list bool)
        (patron_id : string) (book_id : Z),
        PyDate.date now1 <= PyDate.date now2 ->
        match
          outcome (run Storage.handle (calculate_late_fee_for_book patron_id book_id)
                     (Storage.mk bs rs now1 f1)),
          outcome (run Storage.handle (calculate_late_fee_for_book patron_id book_id)
                     (Storage.mk bs rs now2 f2))
        with
        | Py.Returned q1, Py.Returned q2 => fee_amount q1 <= fee_amount q2 <= 1500
        | Py.Raised e1, Py.Raised e2 => e1 = e2
        | _, _ => False
        end).
Proof.
  assert (Hret : forall due_date now_dt,
             return_fee now_dt due_date = (0, 0)
             \/ exists due, snd (return_fee now_dt due_date)
                            = late_fee (overdue_days (PyDate.date now_dt) due)
                  /\ forall now', snd (return_fee now' due_date)
                            = late_fee (overdue_days (PyDate.date now') due)).
  { intros [due_text |] now_dt; [| left; reflexivity].
    destruct (Py.truthy due_text) eqn:Ht.
    - destruct (PyDate.fromisoformat due_text) as [due |] eqn:Hp.
      + right. exists (PyDate.date due).
        split; [| intros now']; rewrite (return_fee_parsed _ _ _ Ht Hp); reflexivity.
      + left. unfold return_fee.
        change (default EmptyString (Some due_text)) with due_text.
        cbn [Py.get_truthy]. rewrite Ht, Hp. reflexivity.
    - left. unfold return_fee. cbn [Py.get_truthy]. rewrite Ht. reflexivity. }
  split; [| split; [| split; [| split]]]; [| | | | exact quote_grows_with_clock].
  - intros due_dt asof1 asof2 H. apply late_fee_mono. unfold overdue_days. lia.
  - intros due_date now1 now2 H.
    destruct (Hret due_date now1) as [E | (due & _ & E)].
    + rewrite E. cbn [snd].
      destruct (Hret due_date now2) as [E2 | (due & E2 & _)]; rewrite E2;
        [cbn [snd]; lia | apply late_fee_nonneg].
    + rewrite !E. apply late_fee_mono. unfold overdue_days. lia.
  - apply late_fee_cap.
  - intros due_date now_dt.
    destruct (Hret due_date now_dt) as [E | (due & E & _)]; rewrite E;
      [cbn [snd]; lia | apply late_fee_cap].
Qed.

Lemma late_fee_monotone_and_capped_witness :
  739555 <= 739565
  /\ late_fee (overdue_days 739555 739550) <= late_fee (overdue_days 739565 739550)
  /\ late_fee 400 <= 1500
  /\ match
       outcome (run Storage.handle (calculate_late_fee_for_book "222222" 2)
                  (Storage.mk Sample.shelf (Storage.borrow_records Sample.lending)
                     (PyDate.mk_datetime 739555 13 5 9 0) [])),
       outcome (run Storage.handle (calculate_late_fee_for_book "222222" 2)
                  (Storage.mk Sample.shelf (Storage.borrow_records Sample.lending)
                     (PyDate.mk_datetime 739565 8 0 0 0) []))
     with
     | Py.Returned q1, Py.Returned q2 => fee_amount q1 <= fee_amount q2 <= 1500
     | Py.Raised e1, Py.Raised e2 => e1 = e2
     | _, _ => False
     end.
Proof.
  assert (H : 739555 <= 739565) by lia.
  destruct late_fee_monotone_and_capped as (Hm & _ & Hc & _ & Hq).
  split; [exact H |]. split; [apply (Hm 739550 _ _ H) |]. split; [apply Hc |].
  apply Hq. exact H.
Defined.

(** ** The store *)

Lemma patron_borrow_count_new (patron_id : string) (book_id : Z)
  (borrow_date due_date : string) (rs : list Borrow.t) :
  Storage.patron_borrow_count patron_id
    (rs ++ [Borrow.mk patron_id book_id borrow_date (Some due_date) None])
  = Storage.patron_borrow_count patron_id rs + 1.
Proof.
  unfold Storage.patron_borrow_count.
  rewrite List.filter_app, length_app. cbn [List.filter Borrow.patron_id].
  rewrite String.eqb_refl. cbn. lia.
Qed.

(** One step of a run on the store. *)
Ltac store_step :=
  cbn [run Storage.handle negb outcome final_state trace fst snd
       Storage.books Storage.borrow_records Storage.now Storage.write_ok].

(** Whether the store takes the write the goal is about to make. *)
Ltac case_write :=
  match goal with
  | |- context [Storage.accepts ?w] => destruct (Storage.accepts w) eqn:?
  end.

(** Comparisons decided by the code, as propositions. *)
Ltac tests_to_Z :=
  repeat match goal with
    | H : (_ <=? _) = true |- _ => apply Z.leb_le in H
    | H : (_ <=? _) = false |- _ => apply Z.leb_gt in H
    | H : (_ <? _) = true |- _ => apply Z.ltb_lt in H
    | H : (_ <? _) = false |- _ => apply Z.ltb_ge in H
    end.

(** ** Borrowing *)

(** The runs of [borrow_book_by_patron] on the store, one goal per path. *)
Ltac borrow_cases w patron_id book_id :=
  unfold borrow_book_by_patron;
  destruct (invalid_patron_id patron_id) eqn:?;
  [| store_step;
     destruct (Storage.books w !! book_id) as [?book |] eqn:?;
     [ destruct (Book.available_copies _ <=? 0) eqn:?;
       [| store_step;
          destruct (5 <=? Storage.patron_borrow_count patron_id _) eqn:?;
          [| store_step; case_write; [ store_step; case_write |] ] ]
     | ] ];
  store_step.

(** C10.  In [borrow_book_by_patron] the availability check comes before the
    limit check: for a valid patron id and a book with no copy available the
    borrow fails with the "not available" message and the only call made is
    the book lookup; the patron's borrow count is not read, whatever it is. *)
Theorem borrow_checks_availability_first (St : Type) (h : handler St)
  (s s1 : St) (patron_id : string) (book_id : Z) (book : Book.t) :
  invalid_patron_id patron_id = false ->
  h _ (get_book_by_id book_id) s = (Some book, s1) ->
  Book.available_copies book <= 0 ->
  let out := run h (borrow_book_by_patron patron_id book_id) s in
  outcome out = (false, "This book is currently not available.")
  /\ trace out = [Event (get_book_by_id book_id) (Some book)]
  /\ never is_get_patron_borrow_count (trace out).
Proof.
  intros Hvalid Hbook Hnone out. subst out.
  unfold borrow_book_by_patron. rewrite Hvalid. cbn [run]. rewrite Hbook.
  apply Z.leb_le in Hnone. rewrite Hnone. repeat split.
Qed.

Lemma borrow_checks_availability_first_witness :
  invalid_patron_id "123456" = false
  /\ Storage.handle _ (get_book_by_id 1) Sample.at_limit
     = (Some Sample.book_out, Sample.at_limit)
  /\ Book.available_copies Sample.book_out <= 0
  /\ 5 <= Storage.patron_borrow_count "123456" (Storage.borrow_records Sample.at_limit)
  /\ outcome (run Storage.handle (borrow_book_by_patron "123456" 1) Sample.at_limit)
     = (false, "This book is currently not available.").
Proof.
  assert (Hv : invalid_patron_id "123456" = false) by reflexivity.
  assert (Hb : Storage.handle _ (get_book_by_id 1) Sample.at_limit
               = (Some Sample.book_out, Sample.at_limit)) by reflexivity.
  assert (Ha : Book.available_copies Sample.book_out <= 0) by (cbn; lia).
  split; [exact Hv |]. split; [exact Hb |]. split; [exact Ha |].
  split; [vm_compute; discriminate |].
  exact (proj1 (borrow_checks_availability_first _ _ _ _ _ _ _ Hv Hb Ha)).
Defined.

(** C3, as stated, fails on the message: a patron who holds five books and
    asks for a book with no copy left is told that the book is not available,
    not that the limit is reached. *)
Lemma borrow_at_limit_message_counterexample :
  5 <= Storage.patron_borrow_count "123456" (Storage.borrow_records Sample.at_limit)
  /\ snd (outcome (run Storage.handle (borrow_book_by_patron "123456" 1)
                     Sample.at_limit))
     <> "You have reached the maximum borrowing limit of 5 books.".
Proof. split; vm_compute; discriminate. Qed.

(** C3, amended.  For every patron whose count of active borrows is 5 or more,
    [borrow_book_by_patron] fails, creates no borrow record and changes no
    availability counter (the store is left as it was, no insert and no
    update is called); the message is the maximum-limit message when the
    patron id is valid and the book exists with a copy available.  Hence after
    any successful borrow the patron holds at most 5 active borrow records. *)
Theorem borrow_blocked_at_limit (w : Storage.t) (patron_id : string) (book_id : Z) :
  let out := run Storage.handle (borrow_book_by_patron patron_id book_id) w in
  (5 <= Storage.patron_borrow_count patron_id (Storage.borrow_records w) ->
   fst (outcome out) = false
   /\ final_state out = w
   /\ never is_insert_borrow_record (trace out)
   /\ never is_update_book_availability (trace out)
   /\ (forall book : Book.t,
         invalid_patron_id patron_id = false ->
         Storage.books w !! book_id = Some book ->
         0 < Book.available_copies book ->
         snd (outcome out)
         = "You have reached the maximum borrowing limit of 5 books."))
  /\ (fst (outcome out) = true ->
      Storage.patron_borrow_count patron_id
        (Storage.borrow_records (final_state out)) <= 5).
Proof.
  intros out. subst out. split.
  - intros Hfull. borrow_cases w patron_id book_id; tests_to_Z; try lia;
      repeat split; intros; simplify_eq; try reflexivity; lia.
  - borrow_cases w patron_id book_id; try discriminate.
    intros _. tests_to_Z. rewrite patron_borrow_count_new. lia.
Qed.

Lemma borrow_blocked_at_limit_witness :
  5 <= Storage.patron_borrow_count "123456" (Storage.borrow_records Sample.at_limit)
  /\ invalid_patron_id "123456" = false
  /\ Storage.books Sample.at_limit !! 2 = Some Sample.book_in
  /\ 0 < Book.available_copies Sample.book_in
  /\ outcome (run Storage.handle (borrow_book_by_patron "123456" 2) Sample.at_limit)
     = (false, "You have reached the maximum borrowing limit of 5 books.")
  /\ final_state (run Storage.handle (borrow_book_by_patron "123456" 2) Sample.at_limit)
     = Sample.at_limit
  /\ fst (outcome (run Storage.handle (borrow_book_by_patron "654321" 2)
                     Sample.at_limit)) = true
  /\ Storage.patron_borrow_count "654321"
       (Storage.borrow_records
          (final_state (run Storage.handle (borrow_book_by_patron "654321" 2)
                          Sample.at_limit))) <= 5.
Proof.
  assert (Hfull : 5 <= Storage.patron_borrow_count "123456"
                         (Storage.borrow_records Sample.at_limit))
    by (vm_compute; discriminate).
  assert (Hvalid : invalid_patron_id "123456" = false) by reflexivity.
  assert (Hbook : Storage.books Sample.at_limit !! 2 = Some Sample.book_in)
    by reflexivity.
  assert (Hcopy : 0 < Book.available_copies Sample.book_in) by (cbn; lia).
  assert (Hok : fst (outcome (run Storage.handle (borrow_book_by_patron "654321" 2)
                                Sample.at_limit)) = true) by reflexivity.
  destruct (borrow_blocked_at_limit Sample.at_limit "123456" 2) as [Hblocked _].
  destruct (Hblocked Hfull) as (Hfail & Hsame & _ & _ & Hmsg).
  split; [exact Hfull |]. split; [exact Hvalid |]. split; [exact Hbook |].
  split; [exact Hcopy |]. split.
  { apply injective_projections; cbn [fst snd];
      [exact Hfail | exact (Hmsg _ Hvalid Hbook Hcopy)]. }
  split; [exact Hsame |]. split; [exact Hok |].
  exact (proj2 (borrow_blocked_at_limit Sample.at_limit "654321" 2) Hok).
Defined.

(** C5.  In [borrow_book_by_patron], when the borrow record is inserted and
    the availability update then fails, the borrow is reported as failed and
    the inserted record stays in the store, the counter unchanged; when the
    insert itself fails, the borrow is reported as failed, nothing is stored
    and no availability update is called. *)
Theorem borrow_partial_failure (w : Storage.t) (patron_id : string)
  (book_id : Z) (book : Book.t) (rest : list bool) :
  invalid_patron_id patron_id = false ->
  Storage.books w !! book_id = Some book ->
  0 < Book.available_copies book ->
  Storage.patron_borrow_count patron_id (Storage.borrow_records w) < 5 ->
  let out := run Storage.handle (borrow_book_by_patron patron_id book_id) w in
  (Storage.write_ok w = true :: false :: rest ->
   outcome out
   = (false, "Database error occurred while updating book availability.")
   /\ Storage.borrow_records (final_state out)
      = Storage.borrow_records w
        ++ [Borrow.mk patron_id book_id (PyDate.isoformat (Storage.now w))
              (Some (PyDate.isoformat (PyDate.add_days (Storage.now w) 14))) None]
   /\ Storage.books (final_state out) = Storage.books w
   /\ trace out
      = [Event (get_book_by_id book_id) (Some book);
         Event (get_patron_borrow_count patron_id)
           (Storage.patron_borrow_count patron_id (Storage.borrow_records w));
         Event datetime_now (Storage.now w);
         Event (insert_borrow_record patron_id book_id (Storage.now w)
                  (PyDate.add_days (Storage.now w) 14)) true;
         Event (update_book_availability book_id (-1)) false])
  /\ (Storage.write_ok w = false :: rest ->
      outcome out
      = (false, "Database error occurred while creating borrow record.")
      /\ Storage.borrow_records (final_state out) = Storage.borrow_records w
      /\ Storage.books (final_state out) = Storage.books w
      /\ never is_update_book_availability (trace out)).
Proof.
  intros Hvalid Hbook Hcopy Hcount out. subst out.
  unfold borrow_book_by_patron. rewrite Hvalid. store_step. rewrite Hbook.
  apply Z.leb_gt in Hcopy. rewrite Hcopy. store_step.
  apply Z.leb_gt in Hcount. rewrite Hcount. store_step.
  unfold Storage.accepts, Storage.later.
  split; intros Hwrites; rewrite !Hwrites; cbn [hd tl]; store_step.
  - cbn [hd tl]. store_step. repeat split.
  - repeat split.
Qed.

Lemma borrow_partial_failure_witness :
  (outcome (run Storage.handle (borrow_book_by_patron "654321" 2)
              Sample.second_write_fails)
   = (false, "Database error occurred while updating book availability.")
   /\ length (Storage.borrow_records
                (final_state (run Storage.handle (borrow_book_by_patron "654321" 2)
                                Sample.second_write_fails))) = 1%nat
   /\ Storage.books
        (final_state (run Storage.handle (borrow_book_by_patron "654321" 2)
                        Sample.second_write_fails))
      = Sample.shelf)
  /\ (outcome (run Storage.handle (borrow_book_by_patron "654321" 2)
                 Sample.first_write_fails)
      = (false, "Database error occurred while creating borrow record.")
      /\ Storage.borrow_records
           (final_state (run Storage.handle (borrow_book_by_patron "654321" 2)
                           Sample.first_write_fails)) = []).
Proof.
  assert (Hvalid : invalid_patron_id "654321" = false) by reflexivity.
  assert (Hcopy : 0 < Book.available_copies Sample.book_in) by (cbn; lia).
  assert (Hcount : Storage.patron_borrow_count "654321" [] < 5) by reflexivity.
  split.
  - destruct (borrow_partial_failure Sample.second_write_fails "654321" 2
                Sample.book_in [] Hvalid eq_refl Hcopy Hcount) as [Hsecond _].
    destruct (Hsecond eq_refl) as (Hout & Hrecords & Hbooks & _).
    split; [exact Hout |]. split; [| exact Hbooks].
    rewrite Hrecords. reflexivity.
  - destruct (borrow_partial_failure Sample.first_write_fails "654321" 2
                Sample.book_in [] Hvalid eq_refl Hcopy Hcount) as [_ Hfirst].
    destruct (Hfirst eq_refl) as (Hout & Hrecords & _).
    split; [exact Hout | exact Hrecords].
Defined.

(** ** The availability counter *)

Lemma bounds_after_change (bs : gmap Z Book.t) (book_id change : Z) (book : Book.t) :
  map_Forall (fun _ b => 0 <= Book.available_copies b <= Book.total_copies b) bs ->
  bs !! book_id = Some book ->
  0 <= Book.available_copies book + change <= Book.total_copies book ->
  map_Forall (fun _ b => 0 <= Book.available_copies b <= Book.total_copies b)
    (alter (Storage.add_copies change) book_id bs).
Proof.
  intros Hall Hbook Hnew i b Hi.
  apply lookup_alter_Some in Hi as [(<- & b0 & Hb0 & ->) | (_ & Hi)].
  - rewrite Hbook in Hb0. injection Hb0 as <-. exact Hnew.
  - exact (Hall i b Hi).
Qed.

Lemma borrow_keeps_bounds (w : Storage.t) (patron_id : string) (book_id : Z) :
  copies_in_bounds w ->
  copies_in_bounds
    (final_state (run Storage.handle (borrow_book_by_patron patron_id book_id) w)).
Proof.
  intros Hw. borrow_cases w patron_id book_id; try exact Hw.
  tests_to_Z. unfold copies_in_bounds. store_step.
  apply (bounds_after_change _ _ _ book); [exact Hw | assumption |].
  match goal with H : _ !! _ = Some _ |- _ => pose proof (Hw _ _ H) as Hb end.
  cbn beta in Hb. lia.
Qed.

(** The runs of [return_book_by_patron] on the store, one goal per path. *)
Ltac return_cases w patron_id book_id :=
  unfold return_book_by_patron;
  destruct (invalid_patron_id patron_id) eqn:?;
  [| store_step;
     destruct (Storage.books w !! book_id) as [?book |] eqn:?;
     [ store_step;
       destruct (Storage.mark_returned patron_id book_id _ _)
         as [[?updated |] ?rs] eqn:?;
       cbn [from_option];
       [ store_step;
         match goal with
         | H : Storage.books w !! book_id = _ |- _ => rewrite H
         end;
         destruct (Book.available_copies _ <? Book.total_copies _) eqn:?;
         [ store_step; case_write |]
       |]
     |] ];
  store_step.

Lemma return_keeps_bounds (w : Storage.t) (patron_id : string) (book_id : Z) :
  copies_in_bounds w ->
  copies_in_bounds
    (final_state (run Storage.handle (return_book_by_patron patron_id book_id) w)).
Proof.
  intros Hw. return_cases w patron_id book_id; try exact Hw.
  tests_to_Z. unfold copies_in_bounds. store_step.
  apply (bounds_after_change _ _ _ book); [exact Hw | assumption |].
  match goal with H : _ !! _ = Some _ |- _ => pose proof (Hw _ _ H) as Hb end.
  cbn beta in Hb. lia.
Qed.

(** The runs of [add_book_to_catalog] on the store: the validation failures
    are closed by [tac], the three paths that reach the store are left. *)
Ltac add_cases w title author isbn total_copies tac :=
  unfold add_book_to_catalog;
  destruct (negb (Py.truthy title) || negb (Py.truthy (Py.strip title))) eqn:?;
  [tac |];
  destruct (200 <? Py.len (Py.strip title)) eqn:?; [tac |];
  destruct (negb (Py.truthy author) || negb (Py.truthy (Py.strip author))) eqn:?;
  [tac |];
  destruct (100 <? Py.len (Py.strip author)) eqn:?; [tac |];
  destruct (negb (Py.len isbn =? 13) || negb (Py.isdigit isbn)) eqn:?; [tac |];
  destruct (total_copies <=? 0) eqn:?; [tac |];
  store_step;
  destruct (Storage.book_by_isbn isbn (Storage.books w)) as [?existing |] eqn:?;
  [| store_step;
     match goal with
     | H : Storage.book_by_isbn isbn (Storage.books w) = _ |- _ => rewrite H
     end;
     case_write ];
  store_step.

Lemma add_keeps_bounds (w : Storage.t) (title author isbn : string)
  (total_copies : Z) :
  copies_in_bounds w ->
  copies_in_bounds
    (final_state
       (run Storage.handle (add_book_to_catalog title author isbn total_copies) w)).
Proof.
  intros Hw.
  add_cases w title author isbn total_copies ltac:(exact Hw); try exact Hw.
  tests_to_Z. unfold copies_in_bounds. store_step.
  apply map_Forall_insert_2; [cbn; lia | exact Hw].
Qed.

Lemma apply_keeps_bounds (w : Storage.t) (st : step) :
  copies_in_bounds w -> copies_in_bounds (apply w st).
Proof.
  intros Hw. unfold apply.
  set (w0 := Storage.mk _ _ _ _).
  assert (Hw0 : copies_in_bounds w0) by exact Hw.
  destruct (op st);
    auto using add_keeps_bounds, borrow_keeps_bounds, return_keeps_bounds.
Qed.

(** C1.  From a store whose counters are in bounds (the empty catalog is
    one), after each operation of any sequence of [add_book_to_catalog],
    [borrow_book_by_patron] and [return_book_by_patron], whatever the clock
    and whatever writes the store refuses, every book has
    [0 <= available_copies <= total_copies].  A borrow of a book with no copy
    available fails without calling [update_book_availability].  A return
    that the store records calls [update_book_availability(book_id, +1)] when
    [available_copies < total_copies]; otherwise it makes no such call,
    leaves the counters as they are and still succeeds.  No return calls
    [update_book_availability] unless the book has
    [available_copies < total_copies]. *)
Theorem available_copies_stay_in_bounds :
  (forall (w : Storage.t) (steps : list step),
     copies_in_bounds w -> Forall copies_in_bounds (states w steps))
  /\ (forall (w : Storage.t) (patron_id : string) (book_id : Z) (book : Book.t),
        Storage.books w !! book_id = Some book ->
        Book.available_copies book <= 0 ->
        let out := run Storage.handle (borrow_book_by_patron patron_id book_id) w in
        fst (outcome out) = false
        /\ never is_update_book_availability (trace out)
        /\ Storage.books (final_state out) = Storage.books w)
  /\ (forall (w : Storage.t) (patron_id : string) (book_id : Z) (book : Book.t)
        (updated : Borrow.t) (rs : list Borrow.t),
        invalid_patron_id patron_id = false ->
        Storage.books w !! book_id = Some book ->
        Storage.mark_returned patron_id book_id (PyDate.isoformat (Storage.now w))
          (Storage.borrow_records w) = (Some updated, rs) ->
        let out := run Storage.handle (return_book_by_patron patron_id book_id) w in
        (Book.available_copies book < Book.total_copies book ->
         In (Event (update_book_availability book_id 1) (Storage.accepts w))
           (trace out)
         /\ (Storage.accepts w = true ->
             Storage.books (final_state out)
             = alter (Storage.add_copies 1) book_id (Storage.books w)))
        /\ (Book.total_copies book <= Book.available_copies book ->
            never is_update_book_availability (trace out)
            /\ Storage.books (final_state out) = Storage.books w
            /\ outcome out
               = Py.Returned (return_message book (Storage.now w) (Row updated))))
  /\ (forall (w : Storage.t) (patron_id : string) (book_id : Z),
        let out := run Storage.handle (return_book_by_patron patron_id book_id) w in
        never is_update_book_availability (trace out)
        \/ exists book : Book.t,
             Storage.books w !! book_id = Some book
             /\ Book.available_copies book < Book.total_copies book).
Proof.
  split; [| split; [| split]].
  - intros w steps. revert w.
    induction steps as [| st steps IH]; intros w Hw; cbn [states].
    + constructor.
    + constructor; [| apply IH]; apply apply_keeps_bounds; exact Hw.
  - intros w patron_id book_id book Hbook Hnone out. subst out.
    borrow_cases w patron_id book_id; tests_to_Z; simplify_eq;
      try lia; repeat split.
  - intros w patron_id book_id book updated rs Hvalid Hbook Hmark out. subst out.
    unfold return_book_by_patron. rewrite Hvalid. store_step.
    rewrite Hbook. store_step. rewrite Hmark. cbn [from_option]. store_step.
    rewrite Hbook.
    destruct (Book.available_copies book <? Book.total_copies book) eqn:Hlt;
      tests_to_Z; (split; [intros Hroom | intros Hfull]); try lia.
    + store_step.
      change (Storage.accepts (Storage.mk (Storage.books w) rs (Storage.now w)
                                 (Storage.write_ok w)))
        with (Storage.accepts w).
      destruct (Storage.accepts w) eqn:Hacc; store_step.
      * split; [| reflexivity]. do 4 right. left. reflexivity.
      * split; [| discriminate]. do 4 right. left. reflexivity.
    + store_step. repeat split.
  - intros w patron_id book_id out. subst out.
    return_cases w patron_id book_id; tests_to_Z;
      first [left; reflexivity | right; eauto].
Qed.

Lemma available_copies_stay_in_bounds_witness :
  copies_in_bounds (Storage.empty Sample.clock)
  /\ Forall copies_in_bounds (states (Storage.empty Sample.clock) Sample.day)
  /\ fst (outcome (run Storage.handle (borrow_book_by_patron "654321" 1)
                     Sample.at_limit)) = false
  /\ Storage.books
       (final_state (run Storage.handle (return_book_by_patron "123456" 3)
                       Sample.counter_not_decremented))
     = Storage.books Sample.counter_not_decremented.
Proof.
  destruct available_copies_stay_in_bounds as (Hseq & Hborrow & Hreturn & _).
  assert (Hempty : copies_in_bounds (Storage.empty Sample.clock))
    by apply map_Forall_empty.
  split; [exact Hempty |]. split; [exact (Hseq _ Sample.day Hempty) |]. split.
  - refine (proj1 (Hborrow Sample.at_limit "654321" 1 Sample.book_out eq_refl _)).
    cbn. lia.
  - assert (Hfull : Book.total_copies Sample.book_full
                    <= Book.available_copies Sample.book_full) by (cbn; lia).
    exact (proj1 (proj2 (proj2 (Hreturn Sample.counter_not_decremented "123456" 3
                                  Sample.book_full _ _ eq_refl eq_refl eq_refl)
                           Hfull))).
Defined.

(** ** The catalog *)

Lemma strip_truthy (s : string) :
  Py.truthy (Py.strip s) = true -> Py.truthy s = true.
Proof. destruct s; [discriminate | reflexivity]. Qed.

(** A valid input passes each validation of [add_book_to_catalog]. *)
Lemma valid_book_input_passes (title author isbn : string) (total_copies : Z) :
  valid_book_input title author isbn total_copies = true ->
  (negb (Py.truthy title) || negb (Py.truthy (Py.strip title))) = false
  /\ (200 <? Py.len (Py.strip title)) = false
  /\ (negb (Py.truthy author) || negb (Py.truthy (Py.strip author))) = false
  /\ (100 <? Py.len (Py.strip author)) = false
  /\ (negb (Py.len isbn =? 13) || negb (Py.isdigit isbn)) = false
  /\ (total_copies <=? 0) = false.
Proof.
  unfold valid_book_input. rewrite !andb_true_iff.
  intros ((((((Ht & Htl) & Ha) & Hal) & Hil) & Hid) & Hc).
  rewrite (strip_truthy _ Ht), (strip_truthy _ Ha), Ht, Ha, Hil, Hid.
  repeat split; try reflexivity; lia.
Qed.

(** An input that is not valid is turned away before any call. *)
Lemma add_rejects_invalid_input (St : Type) (h : handler St) (s : St)
  (title author isbn : string) (total_copies : Z) :
  valid_book_input title author isbn total_copies = false ->
  let out := run h (add_book_to_catalog title author isbn total_copies) s in
  fst (outcome out) = false /\ final_state out = s /\ trace out = [].
Proof.
  intros Hbad out. subst out. unfold add_book_to_catalog.
  destruct (negb (Py.truthy title) || negb (Py.truthy (Py.strip title))) eqn:E1;
    [repeat split |].
  destruct (200 <? Py.len (Py.strip title)) eqn:E2; [repeat split |].
  destruct (negb (Py.truthy author) || negb (Py.truthy (Py.strip author))) eqn:E3;
    [repeat split |].
  destruct (100 <? Py.len (Py.strip author)) eqn:E4; [repeat split |].
  destruct (negb (Py.len isbn =? 13) || negb (Py.isdigit isbn)) eqn:E5;
    [repeat split |].
  destruct (total_copies <=? 0) eqn:E6; [repeat split |].
  exfalso. unfold valid_book_input in Hbad.
  apply orb_false_iff in E1 as [_ E1], E3 as [_ E3], E5 as [E5 E5'].
  apply negb_false_iff in E1, E3, E5, E5'. tests_to_Z.
  rewrite E1, E3, E5, E5' in Hbad. cbn [andb] in Hbad.
  apply andb_false_iff in Hbad as [Hbad | Hbad];
    [apply andb_false_iff in Hbad as [Hbad | Hbad] |]; tests_to_Z; lia.
Qed.

Lemma book_by_isbn_insert (bs : gmap Z Book.t) (id : Z) (b : Book.t) :
  is_Some (Storage.book_by_isbn (Book.isbn b) (<[id := b]> bs)).
Proof.
  unfold Storage.book_by_isbn.
  destruct (List.find _ _) as [kb |] eqn:Hfind; [cbn; eauto |].
  assert (Hin : In (id, b) (map_to_list (<[id := b]> bs))).
  { apply list_elem_of_In, elem_of_map_to_list, lookup_insert_eq. }
  pose proof (find_none _ _ Hfind _ Hin) as Hno. cbn in Hno.
  rewrite String.eqb_refl in Hno. discriminate.
Qed.

(** Digits are ASCII: the ISBN of a valid input is ASCII text. *)
Lemma valid_isbn_is_ascii (title author isbn : string) (total_copies : Z) :
  valid_book_input title author isbn total_copies = true ->
  Py.is_ascii isbn = true.
Proof.
  unfold valid_book_input. rewrite !andb_true_iff.
  intros ((_ & Hid) & _). unfold Py.isdigit in Hid. unfold Py.is_ascii.
  assert (Hall : forallb Py.is_digit (Py.chars isbn) = true)
    by (destruct (Py.chars isbn); [discriminate | exact Hid]).
  clear Hid. induction (Py.chars isbn) as [| c cs IH]; [reflexivity |].
  cbn [forallb] in *. apply andb_true_iff in Hall as [Hc Hcs].
  rewrite (IH Hcs), andb_true_r.
  unfold Py.is_digit in Hc. apply andb_true_iff in Hc as [_ Hc].
  apply N.ltb_lt. apply Z.leb_le in Hc. lia.
Qed.

(** C6.  For every valid input (title and author ASCII text; the thirteen
    digits of the ISBN are ASCII) whose ISBN is already in the catalog,
    [add_book_to_catalog] makes the lookup and no insert, and reports success
    with the message of a fresh add.  On the store, a second add of a book
    whose first add succeeded changes nothing and reports the same success. *)
Theorem add_existing_isbn_is_idempotent :
  (forall (St : Type) (h : handler St) (s s1 : St) (title author isbn : string)
      (total_copies : Z) (existing : Book.t),
      Py.is_ascii title = true -> Py.is_ascii author = true ->
      valid_book_input title author isbn total_copies = true ->
      h _ (get_book_by_isbn isbn) s = (Some existing, s1) ->
      let out := run h (add_book_to_catalog title author isbn total_copies) s in
      outcome out
      = (true, "Book " +:+ Py.dquote +:+ Py.strip title +:+ Py.dquote
               +:+ " has been successfully added to the catalog.")
      /\ final_state out = s1
      /\ trace out = [Event (get_book_by_isbn isbn) (Some existing)]
      /\ never is_insert_book (trace out))
  /\ (forall (St : Type) (h : handler St) (s s1 s2 : St)
        (title author isbn : string) (total_copies : Z),
        Py.is_ascii title = true -> Py.is_ascii author = true ->
        valid_book_input title author isbn total_copies = true ->
        h _ (get_book_by_isbn isbn) s = (None, s1) ->
        h _ (insert_book (Py.strip title) (Py.strip author) isbn total_copies
               total_copies) s1 = (true, s2) ->
        outcome (run h (add_book_to_catalog title author isbn total_copies) s)
        = (true, "Book " +:+ Py.dquote +:+ Py.strip title +:+ Py.dquote
                 +:+ " has been successfully added to the catalog."))
  /\ (forall (w : Storage.t) (title author isbn : string) (total_copies : Z)
        (clock : PyDate.datetime) (writes : list bool),
        let out1 :=
          run Storage.handle (add_book_to_catalog title author isbn total_copies) w in
        let out2 :=
          run Storage.handle (add_book_to_catalog title author isbn total_copies)
            (Storage.mk (Storage.books (final_state out1))
               (Storage.borrow_records (final_state out1)) clock writes) in
        Py.is_ascii title = true -> Py.is_ascii author = true ->
        fst (outcome out1) = true ->
        outcome out2 = outcome out1
        /\ Storage.books (final_state out2) = Storage.books (final_state out1)
        /\ Storage.borrow_records (final_state out2)
           = Storage.borrow_records (final_state out1)
        /\ never is_insert_book (trace out2)).
Proof.
  split; [| split].
  - intros St h s s1 title author isbn total_copies existing _ _ Hvalid Hfound out.
    subst out.
    destruct (valid_book_input_passes _ _ _ _ Hvalid) as (V1 & V2 & V3 & V4 & V5 & V6).
    unfold add_book_to_catalog. rewrite V1, V2, V3, V4, V5, V6.
    cbn [run]. rewrite Hfound. repeat split.
  - intros St h s s1 s2 title author isbn total_copies _ _ Hvalid Hnone Hinsert.
    destruct (valid_book_input_passes _ _ _ _ Hvalid) as (V1 & V2 & V3 & V4 & V5 & V6).
    unfold add_book_to_catalog. rewrite V1, V2, V3, V4, V5, V6.
    cbn [run]. rewrite Hnone. cbn [run]. rewrite Hinsert. reflexivity.
  - intros w title author isbn total_copies clock writes out1 out2 _ _.
    subst out1 out2.
    add_cases w title author isbn total_copies ltac:(cbn; discriminate).
    + intros _.
      match goal with H : Storage.book_by_isbn _ _ = Some _ |- _ => rewrite !H end.
      store_step. repeat split.
    + intros _.
      match goal with
      | |- context [Storage.book_by_isbn isbn (<[?id := ?b]> ?bs)] =>
          destruct (book_by_isbn_insert bs id b) as [found Hfound];
          cbn [Book.isbn] in Hfound; rewrite !Hfound
      end.
      store_step. repeat split.
    + discriminate.
Qed.

Lemma add_existing_isbn_is_idempotent_witness :
  Py.is_ascii "Dune" = true
  /\ Py.is_ascii "Frank Herbert" = true
  /\ valid_book_input "Dune" "Frank Herbert" "9780441172719" 4 = true
  /\ Storage.handle _ (get_book_by_isbn "9780441172719") Sample.at_limit
     = (Some Sample.book_out, Sample.at_limit)
  /\ outcome (run Storage.handle
                (add_book_to_catalog "Dune" "Frank Herbert" "9780441172719" 4)
                Sample.at_limit)
     = (true, "Book " +:+ Py.dquote +:+ "Dune" +:+ Py.dquote
              +:+ " has been successfully added to the catalog.")
  /\ trace (run Storage.handle
              (add_book_to_catalog "Dune" "Frank Herbert" "9780441172719" 4)
              Sample.at_limit)
     = [Event (get_book_by_isbn "9780441172719") (Some Sample.book_out)]
  /\ Storage.books
       (final_state
          (run Storage.handle
             (add_book_to_catalog "Clean Code" "Robert C. Martin" "1234567890123" 3)
             (apply (Storage.empty Sample.clock)
                (Step Sample.clock []
                   (AddBook "Clean Code" "Robert C. Martin" "1234567890123" 3)))))
     = Storage.books
         (apply (Storage.empty Sample.clock)
            (Step Sample.clock []
               (AddBook "Clean Code" "Robert C. Martin" "1234567890123" 3))).
Proof.
  assert (Htitle : Py.is_ascii "Dune" = true) by reflexivity.
  assert (Hauthor : Py.is_ascii "Frank Herbert" = true) by reflexivity.
  assert (Hvalid : valid_book_input "Dune" "Frank Herbert" "9780441172719" 4 = true)
    by reflexivity.
  assert (Hfound : Storage.handle _ (get_book_by_isbn "9780441172719") Sample.at_limit
                   = (Some Sample.book_out, Sample.at_limit)) by reflexivity.
  split; [exact Htitle |]. split; [exact Hauthor |].
  split; [exact Hvalid |]. split; [exact Hfound |].
  destruct (proj1 add_existing_isbn_is_idempotent _ _ _ _ _ _ _ _ _
              Htitle Hauthor Hvalid Hfound)
    as (Hout & _ & Htrace & _).
  split; [exact Hout |]. split; [exact Htrace |].
  exact (proj1 (proj2 (proj2 (proj2 add_existing_isbn_is_idempotent)
                         (Storage.empty Sample.clock) "Clean Code" "Robert C. Martin"
                         "1234567890123" 3 Sample.clock [] eq_refl eq_refl eq_refl))).
Defined.

(** ** Quoting a late fee *)




(** A due date that does not parse: [calculate_late_fee_for_book] reads it
    outside any [try] (line 165) and the [ValueError] goes to the caller. *)
Lemma quote_raises_on_unparseable_due_date (St : Type) (h : handler St)
  (s s1 s2 : St) (patron_id : string) (book_id : Z) (book : Book.t)
  (row : Borrow.t) (due_text : string) :
  invalid_patron_id patron_id = false ->
  h _ (get_book_by_id book_id) s = (Some book, s1) ->
  h _ (update_borrow_record_return_date patron_id book_id None) s1
  = (Py.Returned (Row row), s2) ->
  Borrow.due_date row = Some due_text ->
  Py.truthy due_text = true ->
  PyDate.fromisoformat due_text = None ->
  outcome (run h (calculate_late_fee_for_book patron_id book_id) s)
  = Py.Raised Py.ValueError.
Proof.
  intros Hvalid Hbook Hanswer Hdue Hdt Hdp.
  unfold calculate_late_fee_for_book. rewrite Hvalid.
  cbn [run]. rewrite Hbook. cbn [run]. rewrite Hanswer.
  rewrite Hdue. cbn [Py.get_truthy negb]. rewrite Hdt. cbn [negb].
  change (default EmptyString (Some due_text)) with due_text.
  rewrite Hdp. reflexivity.
Qed.

(** The same due date in [return_book_by_patron] is read inside the [try]:
    the return is reported as on time, with no late fee. *)
Lemma return_message_on_unparseable_due_date (book : Book.t)
  (now_dt : PyDate.datetime) (updated : Borrow.t) (due_text : string) :
  Borrow.due_date updated = Some due_text ->
  PyDate.fromisoformat due_text = None ->
  return_message book now_dt (Row updated)
  = (true, "Returned " +:+ Py.dquote +:+ Book.title book +:+ Py.dquote
           +:+ " on time. No late fee.").
Proof.
  intros Hdue Hdp. unfold return_message, return_fee. rewrite Hdue.
  change (default EmptyString (Some due_text)) with due_text. rewrite Hdp.
  destruct (Py.get_truthy (Some due_text)); reflexivity.
Qed.

(** C4.  On the loan of patron 333333, whose stored due date "26/10/2025"
    does not parse, [return_book_by_patron] degrades to no late fee, but
    [calculate_late_fee_for_book] raises [ValueError] instead of answering
    [days_overdue = 0], [fee_amount = 0.00]. *)
Theorem quote_propagates_unparseable_due_date :
  PyDate.fromisoformat "26/10/2025" = None
  /\ outcome (run Storage.handle (calculate_late_fee_for_book "333333" 2)
                Sample.lending)
     = Py.Raised Py.ValueError
  /\ outcome (run Storage.handle (return_book_by_patron "333333" 2) Sample.lending)
     = Py.Returned
         (true, "Returned " +:+ Py.dquote +:+ "Clean Code" +:+ Py.dquote
                +:+ " on time. No late fee.").
Proof.
  split; [reflexivity |]. split.
  - apply (quote_raises_on_unparseable_due_date Storage.t Storage.handle
             Sample.lending Sample.lending Sample.lending "333333" 2
             Sample.book_in
             (Borrow.mk "333333" 2 "2025-10-12T10:00:00" (Some "26/10/2025") None)
             "26/10/2025"); reflexivity.
  - vm_compute. reflexivity.
Qed.

(** ** Paying a late fee *)

Lemma run_bind {St A B : Type} (h : handler St) (p : prog A) (f : A -> prog B)
  (s : St) :
  run h (bind p f) s
  = let '(a, s1, tr1) := run h p s in
    let '(b, s2, tr2) := run h (f a) s1 in
    (b, s2, tr1 ++ tr2).
Proof.
  revert s. induction p as [a | X c k IH]; intros s; cbn [bind run].
  - destruct (run h (f a) s) as [[b s2] tr2]. reflexivity.
  - destruct (h X c s) as [x s1]. rewrite IH.
    destruct (run h (k x) s1) as [[a s2] tr1].
    destruct (run h (f a) s2) as [[b s3] tr2]. reflexivity.
Qed.

(** [calculate_late_fee_for_book] does not call the gateway. *)
Lemma quote_never_pays (St : Type) (h : handler St) (s : St)
  (patron_id : string) (book_id : Z) :
  never is_process_payment
    (trace (run h (calculate_late_fee_for_book patron_id book_id) s)).
Proof.
  unfold calculate_late_fee_for_book.
  destruct (invalid_patron_id patron_id); [reflexivity |].
  cbn [run]. destruct (h _ (get_book_by_id book_id) s) as [[book |] s1];
    [| reflexivity].
  cbn [run].
  destruct (h _ (update_borrow_record_return_date patron_id book_id None) s1)
    as [[[| | row] | []] s2]; try reflexivity.
  destruct (negb (Py.get_truthy (Borrow.due_date row))); [reflexivity |].
  destruct (PyDate.fromisoformat (default EmptyString (Borrow.due_date row)));
    [| reflexivity].
  destruct (Py.get_truthy (Borrow.return_date row)).
  - destruct (PyDate.fromisoformat (default EmptyString (Borrow.return_date row)));
      [reflexivity |].
    cbn [run]. destruct (h _ datetime_now s2) as [today s3]. reflexivity.
  - cbn [run]. destruct (h _ datetime_now s2) as [today s3]. reflexivity.
Qed.

(** C9.  Whenever the quote of [calculate_late_fee_for_book] has
    [fee_amount = 0], [pay_late_fees] fails with "no late fees owed", makes
    the calls of the quote and no other, and so never calls the gateway's
    [process_payment]. *)
Theorem zero_fee_never_reaches_gateway (St : Type) (h : handler St) (s s1 : St)
  (patron_id : string) (book_id : Z) (quote : FeeQuote) (tr : list event) :
  run h (calculate_late_fee_for_book patron_id book_id) s
  = (Py.Returned quote, s1, tr) ->
  fee_amount quote = 0 ->
  let out := run h (pay_late_fees patron_id book_id) s in
  outcome out = Py.Returned (false, "no late fees owed", None)
  /\ final_state out = s1
  /\ trace out = tr
  /\ never is_process_payment (trace out).
Proof.
  intros Hquote Hzero out. subst out.
  pose proof (quote_never_pays St h s patron_id book_id) as Hnever.
  unfold pay_late_fees. rewrite run_bind, Hquote in *.
  cbn [trace snd] in Hnever.
  unfold pay_quoted_fee. rewrite Hzero. cbn [Z.eqb bind run].
  cbn [outcome final_state trace fst snd]. rewrite app_nil_r.
  repeat split. exact Hnever.
Qed.

Lemma zero_fee_never_reaches_gateway_witness :
  fee_amount (mk_quote 0 0 "Not yet returned; fee calculated as of today.") = 0
  /\ outcome (run Storage.handle (pay_late_fees "444444" 2) Sample.lending)
     = Py.Returned (false, "no late fees owed", None)
  /\ never is_process_payment
       (trace (run Storage.handle (pay_late_fees "444444" 2) Sample.lending)).
Proof.
  assert (Hzero : fee_amount
                    (mk_quote 0 0 "Not yet returned; fee calculated as of today.")
                  = 0) by reflexivity.
  destruct (zero_fee_never_reaches_gateway Storage.t Storage.handle
              Sample.lending Sample.lending "444444" 2 _ _ eq_refl Hzero)
    as (Hout & _ & _ & Hnever).
  split; [exact Hzero |]. split; [exact Hout | exact Hnever].
Defined.

(** ** End to end *)

(** The two end-to-end runs of the specification (section 8): a book with
    three copies is lent (two left) and returned the same day (three again, no
    late fee); a book returned ten days after its due date costs $6.50. *)
Example lend_and_return_same_day :
  let t := Sample.clock in
  let w1 :=
    apply (Storage.empty t)
      (Step t [] (AddBook "Clean Code" "Robert C. Martin" "1234567890123" 3)) in
  let w2 := apply w1 (Step t [] (BorrowBook "111111" 1)) in
  let back := run Storage.handle (return_book_by_patron "111111" 1) w2 in
  Book.available_copies <$> Storage.books w2 !! 1 = Some 2
  /\ Book.available_copies <$> Storage.books (final_state back) !! 1 = Some 3
  /\ outcome back
     = Py.Returned (true, "Returned " +:+ Py.dquote +:+ "Clean Code" +:+ Py.dquote
                          +:+ " on time. No late fee.").
Proof. vm_compute. repeat split. Qed.

Example return_ten_days_late :
  let t := Sample.clock in
  let w1 :=
    apply (Storage.empty t)
      (Step t [] (AddBook "Clean Code" "Robert C. Martin" "1234567890123" 3)) in
  let w2 := apply w1 (Step t [] (BorrowBook "111111" 1)) in
  let late :=
    Storage.mk (Storage.books w2) (Storage.borrow_records w2)
      (PyDate.add_days t 24) [] in
  outcome (run Storage.handle (return_book_by_patron "111111" 1) late)
  = Py.Returned (true, "Returned " +:+ Py.dquote +:+ "Clean Code" +:+ Py.dquote
                       +:+ ". 10 day(s) overdue. Late fee: $6.50.")
  /\ outcome (run Storage.handle (calculate_late_fee_for_book "111111" 1) late)
     = Py.Returned (mk_quote 650 10 "Not yet returned; fee calculated as of today.").
Proof. vm_compute. repeat split. Qed.

(** * More of the service *)

(** ** Text *)

Lemma chars_of_list (cs : list ascii) : Py.chars (string_of_list_ascii cs) = cs.
Proof. apply list_ascii_of_string_of_list_ascii. Qed.

Lemma string_of_chars (s : string) : string_of_list_ascii (Py.chars s) = s.
Proof. apply string_of_list_ascii_of_string. Qed.

Lemma truthy_chars (s : string) : Py.truthy s = negb (bool_decide (Py.chars s = [])).
Proof. destruct s; reflexivity. Qed.

Lemma lstrip_suffix (cs : list ascii) : exists blanks, cs = blanks ++ Py.lstrip cs.
Proof.
  induction cs as [| c cs [blanks IH]]; [exists []; reflexivity |].
  cbn [Py.lstrip]. destruct (Py.is_space c).
  - exists (c :: blanks). cbn. rewrite <- IH. reflexivity.
  - exists []. reflexivity.
Qed.

Lemma lstrip_blank (cs : list ascii) :
  forallb Py.is_space cs = true -> Py.lstrip cs = [].
Proof.
  induction cs as [| c cs IH]; [reflexivity |]. cbn [forallb Py.lstrip].
  intros [Hc Hcs]%andb_true_iff. rewrite Hc. exact (IH Hcs).
Qed.

Lemma lstrip_head (cs : list ascii) :
  match Py.lstrip cs with
  | [] => True
  | c :: _ => Py.is_space c = false
  end.
Proof.
  induction cs as [| c cs IH]; [exact I |]. cbn [Py.lstrip].
  destruct (Py.is_space c) eqn:E; [exact IH | exact E].
Qed.

Lemma lstrip_fixed (cs : list ascii) :
  match cs with [] => True | c :: _ => Py.is_space c = false end ->
  Py.lstrip cs = cs.
Proof. destruct cs as [| c cs]; [reflexivity |]. cbn. intros ->. reflexivity. Qed.


Lemma strip_blank (s : string) :
  forallb Py.is_space (Py.chars s) = true -> Py.strip s = EmptyString.
Proof. intros Hs. unfold Py.strip. rewrite (lstrip_blank _ Hs). reflexivity. Qed.

Lemma strip_strip (s : string) : Py.strip (Py.strip s) = Py.strip s.
Proof.
  unfold Py.strip at 1 2. rewrite chars_of_list.
  set (m := Py.lstrip (Py.chars s)).
  set (r := rev (Py.lstrip (rev m))).
  assert (Hr : Py.lstrip r = r).
  { apply lstrip_fixed.
    destruct (lstrip_suffix (rev m)) as [blanks Hm].
    assert (Hsplit : m = r ++ rev blanks).
    { subst r. rewrite <- rev_app_distr, <- Hm, rev_involutive. reflexivity. }
    pose proof (lstrip_head (Py.chars s)) as Hhead. fold m in Hhead.
    destruct r as [| c r']; [exact I |]. rewrite Hsplit in Hhead. exact Hhead. }
  rewrite Hr. subst r. rewrite rev_involutive.
  assert (Hidem : forall cs, Py.lstrip (Py.lstrip cs) = Py.lstrip cs).
  { intros cs. apply lstrip_fixed, lstrip_head. }
  rewrite Hidem. reflexivity.
Qed.

Lemma lower_char_space (c : ascii) : Py.is_space (PyStr.lower_char c) = Py.is_space c.
Proof. destruct c as [[] [] [] [] [] [] [] []]; reflexivity. Qed.

Lemma lower_char_lower (c : ascii) :
  PyStr.lower_char (PyStr.lower_char c) = PyStr.lower_char c.
Proof. destruct c as [[] [] [] [] [] [] [] []]; reflexivity. Qed.

Lemma chars_lower (s : string) :
  Py.chars (PyStr.lower s) = map PyStr.lower_char (Py.chars s).
Proof. unfold PyStr.lower. apply chars_of_list. Qed.

Lemma lstrip_lower (cs : list ascii) :
  Py.lstrip (map PyStr.lower_char cs) = map PyStr.lower_char (Py.lstrip cs).
Proof.
  induction cs as [| c cs IH]; [reflexivity |]. cbn [map Py.lstrip].
  rewrite lower_char_space. destruct (Py.is_space c); [exact IH | reflexivity].
Qed.

Lemma strip_lower (s : string) : Py.strip (PyStr.lower s) = PyStr.lower (Py.strip s).
Proof.
  unfold Py.strip at 1. rewrite chars_lower, lstrip_lower.
  rewrite <- map_rev, lstrip_lower, <- map_rev.
  unfold PyStr.lower, Py.strip. rewrite chars_of_list. reflexivity.
Qed.

Lemma lower_lower (s : string) : PyStr.lower (PyStr.lower s) = PyStr.lower s.
Proof.
  unfold PyStr.lower at 1. rewrite chars_lower, map_map.
  unfold PyStr.lower. f_equal. apply map_ext. exact lower_char_lower.
Qed.

Lemma truthy_lower (s : string) : Py.truthy (PyStr.lower s) = Py.truthy s.
Proof. destruct s; reflexivity. Qed.



(** ** Searching the catalog *)

Lemma filter_sublist {A : Type} (f : A -> bool) (l : list A) :
  sublist (List.filter f l) l.
Proof.
  induction l as [| x l IH]; [constructor |]. cbn [List.filter].
  destruct (f x); [apply sublist_skip | apply sublist_cons]; exact IH.
Qed.

(** X1.  A search with a blank term (none, empty or only blanks) finds nothing
    and does not read the catalog. *)
Theorem search_blank_term_reads_nothing (H St : Type) (lib : library H St)
  (s : St) (search_term : option string) (search_type : string) :
  forallb Py.is_space (Py.chars (default EmptyString search_term)) = true ->
  consult lib (search_books_in_catalog search_term search_type) s = ([], s, []).
Proof.
  intros Hblank. unfold search_books_in_catalog.
  rewrite (strip_blank _ Hblank). reflexivity.
Qed.

Lemma search_blank_term_reads_nothing_witness :
  forallb Py.is_space (Py.chars (default EmptyString (Some "   "))) = true
  /\ consult (fixed_library (H := unit) (Some [Sample.book_in]) None None Sample.clock)
       (search_books_in_catalog (Some "   ") "title") tt
     = ([], tt, [])
  /\ consult (fixed_library (H := unit) (Some [Sample.book_in]) None None Sample.clock)
       (search_books_in_catalog None "isbn") tt
     = ([], tt, []).
Proof.
  split; [reflexivity |]. split.
  - apply search_blank_term_reads_nothing. reflexivity.
  - apply search_blank_term_reads_nothing. reflexivity.
Defined.

(** X2.  Whatever the term and the type, a search reads the catalog at most
    once and returns books of the catalog only, in catalog order and no more
    often than the catalog lists them; a catalog that is [None] or empty gives
    no result. *)
Theorem search_results_come_from_catalog (H St : Type) (lib : library H St)
  (s : St) (search_term : option string) (search_type : string) :
  let out := consult lib (search_books_in_catalog search_term search_type) s in
  let answer := fst (lib _ get_all_books s) in
  sublist (value_of out) (default [] answer)
  /\ (queries_of out = [] /\ state_of out = s
      \/ queries_of out = [Asked get_all_books answer]
         /\ state_of out = snd (lib _ get_all_books s)).
Proof.
  intros out answer. subst out answer. unfold search_books_in_catalog.
  destruct (negb (Py.truthy (Py.strip (default EmptyString search_term)))).
  - cbn. split; [apply sublist_nil_l | left; split; reflexivity].
  - cbn [consult]. destruct (lib _ get_all_books s) as [answer s1].
    cbn [fst snd].
    destruct (String.eqb search_type "isbn");
      [| destruct (String.eqb search_type "title");
         [| destruct (String.eqb search_type "author")]];
      cbn [consult value_of queries_of state_of fst snd];
      (split; [apply filter_sublist | right; split; reflexivity]).
Qed.

(** X3.  Title, author and fallback searches do not depend on the case of the
    term, and no search depends on the blanks around it. *)
Theorem search_ignores_case_and_blanks (H St : Type) (lib : library H St)
  (s : St) (term : string) (search_type : string) :
  consult lib (search_books_in_catalog (Some (Py.strip term)) search_type) s
  = consult lib (search_books_in_catalog (Some term) search_type) s
  /\ (search_type <> "isbn" ->
      consult lib (search_books_in_catalog (Some (PyStr.lower term)) search_type) s
      = consult lib (search_books_in_catalog (Some term) search_type) s).
Proof.
  split.
  - unfold search_books_in_catalog.
    change (default EmptyString (Some (Py.strip term))) with (Py.strip term).
    rewrite strip_strip. reflexivity.
  - intros Hnot. apply String.eqb_neq in Hnot.
    unfold search_books_in_catalog.
    change (default EmptyString (Some (PyStr.lower term))) with (PyStr.lower term).
    change (default EmptyString (Some term)) with term.
    rewrite strip_lower, truthy_lower, lower_lower, Hnot. reflexivity.
Qed.

Lemma search_ignores_case_and_blanks_witness :
  "title" <> "isbn"
  /\ value_of
       (consult (fixed_library (H := unit)
                   (Some [Sample.book_out; Sample.book_in]) None None Sample.clock)
          (search_books_in_catalog (Some "  clean CODE ") "title") tt)
     = [Sample.book_in]
  /\ consult (fixed_library (H := unit)
                (Some [Sample.book_out; Sample.book_in]) None None Sample.clock)
       (search_books_in_catalog (Some (PyStr.lower "  clean CODE ")) "title") tt
     = consult (fixed_library (H := unit)
                  (Some [Sample.book_out; Sample.book_in]) None None Sample.clock)
         (search_books_in_catalog (Some "  clean CODE ") "title") tt.
Proof.
  assert (Hty : "title" <> "isbn") by discriminate.
  split; [exact Hty |]. split; [reflexivity |].
  exact (proj2 (search_ignores_case_and_blanks unit unit _ tt "  clean CODE " "title")
           Hty).
Defined.




(** X5.  With a search type that is none of "isbn", "title" and "author", a
    book is found exactly when the search by title or the search by author
    finds it. *)
Theorem search_fallback_is_title_or_author (H St : Type) (lib : library H St)
  (s : St) (search_term : option string) (search_type : string) (b : Book.t) :
  search_type <> "isbn" -> search_type <> "title" -> search_type <> "author" ->
  In b (value_of (consult lib (search_books_in_catalog search_term search_type) s))
  <-> In b (value_of (consult lib (search_books_in_catalog search_term "title") s))
      \/ In b (value_of (consult lib (search_books_in_catalog search_term "author") s)).
Proof.
  intros Hi%String.eqb_neq Ht%String.eqb_neq Ha%String.eqb_neq.
  unfold search_books_in_catalog. rewrite Hi, Ht, Ha.
  destruct (negb (Py.truthy (Py.strip (default EmptyString search_term)))).
  - cbn. tauto.
  - cbn [consult]. destruct (lib _ get_all_books s) as [answer s1].
    cbn [String.eqb Ascii.eqb Bool.eqb consult value_of fst].
    rewrite !filter_In, orb_true_iff. tauto.
Qed.

Lemma search_fallback_is_title_or_author_witness :
  "any" <> "isbn" /\ "any" <> "title" /\ "any" <> "author"
  /\ (In Sample.book_in
        (value_of
           (consult (fixed_library (H := unit)
                       (Some [Sample.book_out; Sample.book_in]) None None
                       Sample.clock)
              (search_books_in_catalog (Some "martin") "any") tt))
      <-> In Sample.book_in
            (value_of
               (consult (fixed_library (H := unit)
                           (Some [Sample.book_out; Sample.book_in]) None None
                           Sample.clock)
                  (search_books_in_catalog (Some "martin") "title") tt))
          \/ In Sample.book_in
               (value_of
                  (consult (fixed_library (H := unit)
                              (Some [Sample.book_out; Sample.book_in]) None None
                              Sample.clock)
                     (search_books_in_catalog (Some "martin") "author") tt))).
Proof.
  assert (H1 : "any" <> "isbn") by discriminate.
  assert (H2 : "any" <> "title") by discriminate.
  assert (H3 : "any" <> "author") by discriminate.
  split; [exact H1 |]. split; [exact H2 |]. split; [exact H3 |].
  exact (search_fallback_is_title_or_author unit unit _ tt (Some "martin") "any"
           Sample.book_in H1 H2 H3).
Defined.



(** ** The patron report *)

(** The loop over the loans, when every due date can be read: one entry per
    loan, in order, each with the fee of the fee policy. *)
Lemma report_loans_returned (today : Z) (active : list Loan.t) :
  forall (so_far : list Entry.t) (total : Z),
    Forall (fun rec => loan_due rec <> None) active ->
    exists entries,
      report_loans today active so_far total
      = Py.Returned (so_far ++ entries, total + fees_total entries)
      /\ Forall2 (fun rec e => exists due, loan_due rec = Some due
                                          /\ e = entry_of today rec due)
           active entries.
Proof.
  induction active as [| rec more IH]; intros so_far total Hall.
  - exists []. cbn. rewrite app_nil_r, Z.add_0_r. split; constructor.
  - apply Forall_cons in Hall as [Hrec Hmore]. cbn [report_loans].
    destruct (loan_due rec) as [due |] eqn:Hdue; [| congruence].
    destruct (IH (so_far ++ [entry_of today rec due])
                (total + late_fee (overdue_days today due)) Hmore)
      as (entries & Hrun & Hentries).
    exists (entry_of today rec due :: entries). split.
    + unfold entry_of, late_fee, overdue_days in *. rewrite Hrun.
      rewrite <- app_assoc. cbn [app fees_total fold_right Entry.late_fee].
      f_equal. f_equal. fold (fees_total entries). lia.
    + constructor; [exists due; split; [exact Hdue | reflexivity] | exact Hentries].
Qed.

(** The loop raises as soon as a due date cannot be read. *)
Lemma report_loans_raised (today : Z) (active : list Loan.t) :
  forall (so_far : list Entry.t) (total : Z),
    Exists (fun rec => loan_due rec = None) active ->
    report_loans today active so_far total = Py.Raised Py.ValueError.
Proof.
  induction active as [| rec more IH]; intros so_far total Hex.
  - inversion Hex.
  - cbn [report_loans]. destruct (loan_due rec) as [due |] eqn:Hdue; [| reflexivity].
    apply IH. apply Exists_cons in Hex as [Hbad | Hex]; [congruence | exact Hex].
Qed.

Lemma loans_readable_or_not (active : list Loan.t) :
  Forall (fun rec => loan_due rec <> None) active
  \/ Exists (fun rec => loan_due rec = None) active.
Proof.
  induction active as [| rec more [IH | IH]].
  - left. constructor.
  - destruct (loan_due rec) eqn:E.
    + left. constructor; [congruence | exact IH].
    + right. apply Exists_cons. left. exact E.
  - right. apply Exists_cons. right. exact IH.
Qed.

(** X7.  For a valid patron id whose active loans all have a readable due
    date, the report has one entry per loan, in the order of the loans, with
    the book, the title, the due date as [YYYY-MM-DD], the days overdue as of
    today and the fee of the fee policy; the total is the sum of these fees,
    the count is the number of loans, and the history is the one the store
    answers ([None] read as empty). The queries are the loans, the clock and
    the history, in this order. *)
Theorem report_lists_every_loan (H St : Type) (lib : library H St)
  (s s1 s2 s3 : St) (patron_id : string) (active : option (list Loan.t))
  (now_dt : PyDate.datetime) (past : option (list H)) :
  invalid_patron_id patron_id = false ->
  lib _ (get_patron_borrowed_books patron_id) s = (active, s1) ->
  lib _ clock_now s1 = (now_dt, s2) ->
  lib _ (get_patron_borrow_history patron_id) s2 = (past, s3) ->
  Forall (fun rec => loan_due rec <> None) (default [] active) ->
  exists entries,
    consult lib (get_patron_status_report patron_id) s
    = (Py.Returned
         (Report.mk patron_id entries (fees_total entries)
            (Z.of_nat (length (default [] active))) (default [] past) "Complete"),
       s3,
       [Asked (get_patron_borrowed_books patron_id) active;
        Asked clock_now now_dt;
        Asked (get_patron_borrow_history patron_id) past])
    /\ Forall2 (fun rec e => exists due, loan_due rec = Some due
                                        /\ e = entry_of (PyDate.date now_dt) rec due)
         (default [] active) entries.
Proof.
  intros Hvalid Hloans Hclock Hpast Hall.
  destruct (report_loans_returned (PyDate.date now_dt) (default [] active) [] 0 Hall)
    as (entries & Hrun & Hentries).
  exists entries. split; [| exact Hentries].
  unfold get_patron_status_report. rewrite Hvalid.
  cbn [consult]. rewrite Hloans. cbn [consult]. rewrite Hclock, Hrun.
  cbn [consult app]. rewrite Hpast. cbn [consult].
  rewrite (Forall2_length _ _ _ Hentries). reflexivity.
Qed.

Lemma report_lists_every_loan_witness :
  invalid_patron_id "222222" = false
  /\ Forall (fun rec => loan_due rec <> None) sample_loans
  /\ value_of
       (consult (fixed_library None (Some sample_loans) (Some [tt; tt]) Sample.clock)
          (get_patron_status_report "222222") tt)
     = Py.Returned
         (Report.mk "222222"
            [Entry.mk 2 "Clean Code" "2025-10-26" 5 250;
             Entry.mk 3 "Refactoring" "2025-11-10" 0 0]
            250 2 [tt; tt] "Complete")
  /\ exists entries,
       value_of
         (consult (fixed_library None (Some sample_loans) (Some [tt; tt]) Sample.clock)
            (get_patron_status_report "222222") tt)
       = Py.Returned
           (Report.mk "222222" entries (fees_total entries) 2 [tt; tt] "Complete").
Proof.
  assert (Hvalid : invalid_patron_id "222222" = false) by reflexivity.
  assert (Hall : Forall (fun rec => loan_due rec <> None) sample_loans)
    by (repeat constructor; discriminate).
  split; [exact Hvalid |]. split; [exact Hall |]. split; [reflexivity |].
  destruct (report_lists_every_loan unit unit
              (fixed_library None (Some sample_loans) (Some [tt; tt]) Sample.clock)
              tt tt tt tt "222222" _ _ _ Hvalid eq_refl eq_refl eq_refl Hall)
    as (entries & Hrun & _).
  exists entries. rewrite Hrun. reflexivity.
Defined.

(** A loan whose due date does not begin with a year is not read. *)
Lemma due_unreadable_not_read (rec : Loan.t) :
  due_unreadable rec = true -> loan_due rec = None.
Proof.
  unfold due_unreadable, loan_due. destruct (Loan.due_date rec) as [dt | text].
  - discriminate.
  - intros Hbad. rewrite (unreadable_not_iso _ Hbad). reflexivity.
Qed.

(** X8.  When the due date of some active loan is neither a [datetime] nor a
    text that begins with the four digits of a year (so that
    [datetime.fromisoformat] refuses it), the report raises [ValueError]; it
    has asked for the loans and the clock, and never asks for the history. *)
Theorem report_raises_on_unreadable_due_date (H St : Type) (lib : library H St)
  (s s1 s2 : St) (patron_id : string) (active : option (list Loan.t))
  (now_dt : PyDate.datetime) :
  invalid_patron_id patron_id = false ->
  lib _ (get_patron_borrowed_books patron_id) s = (active, s1) ->
  lib _ clock_now s1 = (now_dt, s2) ->
  existsb due_unreadable (default [] active) = true ->
  let out := consult lib (get_patron_status_report patron_id) s in
  value_of out = Py.Raised Py.ValueError
  /\ state_of out = s2
  /\ queries_of out
     = [Asked (get_patron_borrowed_books patron_id) active; Asked clock_now now_dt]
  /\ forallb (fun a => negb (is_get_patron_borrow_history a)) (queries_of out) = true.
Proof.
  intros Hvalid Hloans Hclock Hbad out. subst out.
  assert (Hnone : Exists (fun rec => loan_due rec = None) (default [] active)).
  { apply existsb_exists in Hbad as (rec & Hin & Hrec).
    apply Exists_exists. exists rec. split; [apply list_elem_of_In, Hin |].
    apply due_unreadable_not_read, Hrec. }
  unfold get_patron_status_report. rewrite Hvalid.
  cbn [consult]. rewrite Hloans. cbn [consult]. rewrite Hclock.
  rewrite (report_loans_raised _ _ [] 0 Hnone). repeat split.
Qed.

Lemma report_raises_on_unreadable_due_date_witness :
  invalid_patron_id "333333" = false
  /\ existsb due_unreadable unreadable_loans = true
  /\ value_of
       (consult (fixed_library None (Some unreadable_loans) (Some [tt]) Sample.clock)
          (get_patron_status_report "333333") tt)
     = Py.Raised Py.ValueError.
Proof.
  assert (Hvalid : invalid_patron_id "333333" = false) by reflexivity.
  assert (Hbad : existsb due_unreadable unreadable_loans = true) by reflexivity.
  split; [exact Hvalid |]. split; [exact Hbad |].
  exact (proj1 (report_raises_on_unreadable_due_date unit unit
                  (fixed_library None (Some unreadable_loans) (Some [tt]) Sample.clock)
                  tt tt tt "333333" (Some unreadable_loans) Sample.clock
                  Hvalid eq_refl eq_refl Hbad)).
Defined.

Lemma fees_total_bounds (entries : list Entry.t) :
  Forall (fun e => 0 <= Entry.late_fee e <= 1500) entries ->
  0 <= fees_total entries <= 1500 * Z.of_nat (length entries).
Proof.
  unfold fees_total. induction 1 as [| e entries He _ IH]; cbn [fold_right length].
  - lia.
  - rewrite Nat2Z.inj_succ. lia.
Qed.

Lemma entries_well_formed (today : Z) (active : list Loan.t)
  (entries : list Entry.t) :
  Forall2 (fun rec e => exists due, loan_due rec = Some due
                                   /\ e = entry_of today rec due)
    active entries ->
  Forall (fun e => 0 <= Entry.days_overdue e
                   /\ Entry.late_fee e = late_fee (Entry.days_overdue e)
                   /\ 0 <= Entry.late_fee e <= 1500) entries.
Proof.
  induction 1 as [| rec e active entries (due & _ & ->) _ IH]; constructor;
    [| exact IH].
  cbn [entry_of Entry.days_overdue Entry.late_fee].
  pose proof (late_fee_nonneg (overdue_days today due)).
  pose proof (late_fee_cap (overdue_days today due)).
  unfold overdue_days in *. repeat split; lia.
Qed.

(** X9.  Every report the function returns, for whatever patron id and
    whatever the store answers, is consistent: it bears the patron id asked
    for, the count is the number of entries, the total is the sum of the fees
    of the entries, each fee is the fee policy's fee for the entry's days
    overdue (none negative), and the total is at most 15.00 per book borrowed. *)
Theorem report_is_consistent (H St : Type) (lib : library H St) (s : St)
  (patron_id : string) (r : Report.t H) :
  value_of (consult lib (get_patron_status_report patron_id) s) = Py.Returned r ->
  Report.patron_id r = patron_id
  /\ Report.num_currently_borrowed r
     = Z.of_nat (length (Report.currently_borrowed r))
  /\ Report.total_late_fees_owed r = fees_total (Report.currently_borrowed r)
  /\ Forall (fun e => 0 <= Entry.days_overdue e
                      /\ Entry.late_fee e = late_fee (Entry.days_overdue e))
       (Report.currently_borrowed r)
  /\ 0 <= Report.total_late_fees_owed r <= 1500 * Report.num_currently_borrowed r.
Proof.
  unfold get_patron_status_report.
  destruct (invalid_patron_id patron_id).
  { cbn. intros [= <-]. cbn. repeat split; try lia. constructor. }
  cbn [consult].
  destruct (lib _ (get_patron_borrowed_books patron_id) s) as [active s1].
  cbn [consult]. destruct (lib _ clock_now s1) as [now_dt s2].
  destruct (loans_readable_or_not (default [] active)) as [Hall | Hbad].
  - destruct (report_loans_returned (PyDate.date now_dt) _ [] 0 Hall)
      as (entries & Hrun & Hentries).
    rewrite Hrun. cbn [consult app].
    destruct (lib _ (get_patron_borrow_history patron_id) s2) as [past s3].
    cbn [consult value_of fst]. intros [= <-].
    cbn [Report.patron_id Report.num_currently_borrowed Report.currently_borrowed
         Report.total_late_fees_owed].
    pose proof (entries_well_formed _ _ _ Hentries) as Hwf.
    split; [reflexivity |]. split; [reflexivity |]. split; [lia |]. split.
    + eapply Forall_impl; [exact Hwf |]. cbn beta. intros e (? & ? & _). auto.
    + rewrite Z.add_0_l. apply fees_total_bounds.
      eapply Forall_impl; [exact Hwf |]. cbn beta. intros e (_ & _ & ?). auto.
  - rewrite (report_loans_raised _ _ [] 0 Hbad). cbn. discriminate.
Qed.

Lemma report_is_consistent_witness :
  exists r : Report.t unit,
    value_of
      (consult (fixed_library None (Some sample_loans) None Sample.clock)
         (get_patron_status_report "222222") tt)
    = Py.Returned r
    /\ Report.total_late_fees_owed r = fees_total (Report.currently_borrowed r)
    /\ 0 <= Report.total_late_fees_owed r <= 1500 * Report.num_currently_borrowed r.
Proof.
  eexists. split; [reflexivity |].
  match goal with
  | |- context [Report.total_late_fees_owed ?r] =>
      destruct (report_is_consistent unit unit
                  (fixed_library None (Some sample_loans) None Sample.clock) tt
                  "222222" r eq_refl) as (_ & _ & Htotal & _ & Hbound)
  end.
  split; [exact Htotal | exact Hbound].
Defined.

Lemma late_fee_zero (days_overdue : Z) : late_fee days_overdue = 0 <-> days_overdue <= 0.
Proof.
  unfold late_fee. destruct (days_overdue <=? 0) eqn:E; tests_to_Z; cbn zeta; lia.
Qed.

Lemma fees_total_zero (today : Z) (active : list Loan.t) (entries : list Entry.t) :
  Forall2 (fun rec e => exists due, loan_due rec = Some due
                                   /\ e = entry_of today rec due)
    active entries ->
  fees_total entries = 0
  <-> Forall (fun rec => exists due, loan_due rec = Some due /\ today <= due) active.
Proof.
  unfold fees_total.
  induction 1 as [| rec e active entries (due & Hdue & ->) Hrest IH];
    cbn [fold_right].
  - split; [constructor | reflexivity].
  - cbn [entry_of Entry.late_fee].
    pose proof (late_fee_nonneg (overdue_days today due)) as Hfee.
    pose proof (late_fee_zero (overdue_days today due)) as Hzero.
    assert (Hrestpos : 0 <= fold_right (fun e acc => Entry.late_fee e + acc) 0 entries).
    { apply (fees_total_bounds entries).
      eapply Forall_impl; [exact (entries_well_formed _ _ _ Hrest) |].
      cbn beta. intros e (_ & _ & ?). auto. }
    unfold overdue_days in *. split.
    + intros Hsum. constructor; [exists due; split; [exact Hdue | lia] |].
      apply IH. lia.
    + intros Hall. apply Forall_cons in Hall as [(due' & Hdue' & Hle) Hall].
      rewrite Hdue in Hdue'. injection Hdue' as <-.
      apply IH in Hall. lia.
Qed.

(** X10.  A patron whose active loans all have a readable due date owes
    nothing exactly when no loan is past its due date today. *)
Theorem report_owes_nothing_iff_nothing_overdue (H St : Type) (lib : library H St)
  (s s1 s2 : St) (patron_id : string) (active : option (list Loan.t))
  (now_dt : PyDate.datetime) :
  invalid_patron_id patron_id = false ->
  lib _ (get_patron_borrowed_books patron_id) s = (active, s1) ->
  lib _ clock_now s1 = (now_dt, s2) ->
  Forall (fun rec => loan_due rec <> None) (default [] active) ->
  exists r,
    value_of (consult lib (get_patron_status_report patron_id) s) = Py.Returned r
    /\ (Report.total_late_fees_owed r = 0
        <-> Forall (fun rec => exists due, loan_due rec = Some due
                                          /\ PyDate.date now_dt <= due)
              (default [] active)).
Proof.
  intros Hvalid Hloans Hclock Hall.
  destruct (report_loans_returned (PyDate.date now_dt) (default [] active) [] 0 Hall)
    as (entries & Hrun & Hentries).
  unfold get_patron_status_report. rewrite Hvalid.
  cbn [consult]. rewrite Hloans. cbn [consult]. rewrite Hclock, Hrun.
  cbn [consult app].
  destruct (lib _ (get_patron_borrow_history patron_id) s2) as [past s3].
  cbn [consult value_of fst]. eexists. split; [reflexivity |].
  cbn [Report.total_late_fees_owed]. rewrite Z.add_0_l.
  exact (fees_total_zero _ _ _ Hentries).
Qed.

Lemma report_owes_nothing_iff_nothing_overdue_witness :
  invalid_patron_id "222222" = false
  /\ Forall (fun rec => loan_due rec <> None) sample_loans
  /\ exists r : Report.t unit,
       value_of
         (consult (fixed_library None (Some sample_loans) None
                     (PyDate.mk_datetime 739550 8 0 0 0))
            (get_patron_status_report "222222") tt)
       = Py.Returned r
       /\ (Report.total_late_fees_owed r = 0
           <-> Forall (fun rec => exists due, loan_due rec = Some due
                                             /\ 739550 <= due)
                 sample_loans).
Proof.
  assert (Hvalid : invalid_patron_id "222222" = false) by reflexivity.
  assert (Hall : Forall (fun rec => loan_due rec <> None) sample_loans)
    by (repeat constructor; discriminate).
  split; [exact Hvalid |]. split; [exact Hall |].
  exact (report_owes_nothing_iff_nothing_overdue unit unit
           (fixed_library None (Some sample_loans) None
              (PyDate.mk_datetime 739550 8 0 0 0))
           tt tt tt "222222" (Some sample_loans) _ Hvalid eq_refl eq_refl Hall).
Defined.

(** ** Patron ids *)

(** The patron ids the service accepts are the texts of exactly six
    digits. *)
Lemma invalid_patron_id_iff (patron_id : string) :
  invalid_patron_id patron_id = false
  <-> String.length patron_id = 6%nat
      /\ forallb Py.is_digit (Py.chars patron_id) = true.
Proof.
  unfold invalid_patron_id, Py.isdigit, Py.len.
  rewrite !orb_false_iff, !negb_false_iff, Z.eqb_eq.
  destruct patron_id as [| c rest].
  - cbn. split; [intros [[? _] _]; discriminate | intros [? _]; discriminate].
  - change (Py.chars (String c rest)) with (c :: Py.chars rest).
    cbn [Py.truthy]. split.
    + intros [[_ Hd] Hl]. split; [lia | exact Hd].
    + intros [Hl Hd]. rewrite Hl. repeat split; [exact Hd].
Qed.

(** X11.  A patron id of ASCII text that is not exactly six digits is turned
    away by [borrow_book_by_patron], [return_book_by_patron],
    [calculate_late_fee_for_book] and [get_patron_status_report] before any
    call to the store, the clock or the gateway, with the same message; the
    quote and the report are then all zeros. *)
Theorem patron_id_is_checked_before_any_call (patron_id : string) (book_id : Z) :
  Py.is_ascii patron_id = true ->
  ~ (String.length patron_id = 6%nat
     /\ forallb Py.is_digit (Py.chars patron_id) = true) ->
  (forall (St : Type) (h : handler St) (s : St),
      run h (borrow_book_by_patron patron_id book_id) s
      = ((false, "Invalid patron ID. Must be exactly 6 digits."), s, [])
      /\ run h (return_book_by_patron patron_id book_id) s
         = (Py.Returned (false, "Invalid patron ID. Must be exactly 6 digits."),
            s, [])
      /\ run h (calculate_late_fee_for_book patron_id book_id) s
         = (Py.Returned
              (mk_quote 0 0 "Invalid patron ID. Must be exactly 6 digits."),
            s, []))
  /\ (forall (H St : Type) (lib : library H St) (s : St),
        consult lib (get_patron_status_report patron_id) s
        = (Py.Returned
             (Report.mk patron_id [] 0 0 []
                "Invalid patron ID. Must be exactly 6 digits."),
           s, [])).
Proof.
  intros _ Hbad.
  assert (Hinvalid : invalid_patron_id patron_id = true).
  { destruct (invalid_patron_id patron_id) eqn:E; [reflexivity |].
    exfalso. apply Hbad, invalid_patron_id_iff, E. }
  split.
  - intros St h s.
    unfold borrow_book_by_patron, return_book_by_patron, calculate_late_fee_for_book.
    rewrite Hinvalid. repeat split.
  - intros H St lib s. unfold get_patron_status_report. rewrite Hinvalid.
    reflexivity.
Qed.

Lemma patron_id_is_checked_before_any_call_witness :
  Py.is_ascii "12A45B" = true
  /\ ~ (String.length "12A45B" = 6%nat
        /\ forallb Py.is_digit (Py.chars "12A45B") = true)
  /\ run Storage.handle (borrow_book_by_patron "12A45B" 2) Sample.lending
     = ((false, "Invalid patron ID. Must be exactly 6 digits."), Sample.lending, [])
  /\ value_of
       (consult (fixed_library None (Some sample_loans) (Some [tt]) Sample.clock)
          (get_patron_status_report "12345") tt)
     = Py.Returned
         (Report.mk "12345" [] 0 0 [] "Invalid patron ID. Must be exactly 6 digits.").
Proof.
  assert (Hbad : ~ (String.length "12A45B" = 6%nat
                    /\ forallb Py.is_digit (Py.chars "12A45B") = true))
    by (intros [_ Hd]; discriminate Hd).
  assert (Hshort : ~ (String.length "12345" = 6%nat
                      /\ forallb Py.is_digit (Py.chars "12345") = true))
    by (intros [Hl _]; discriminate Hl).
  split; [reflexivity |]. split; [exact Hbad |]. split.
  - exact (proj1 (proj1 (patron_id_is_checked_before_any_call "12A45B" 2 eq_refl Hbad)
                    Storage.t Storage.handle Sample.lending)).
  - rewrite (proj2 (patron_id_is_checked_before_any_call "12345" 0 eq_refl Hshort)
               unit unit). reflexivity.
Defined.

(** ** Adding a book, again *)

(** X12.  On ASCII text, [add_book_to_catalog] reaches the store exactly when
    its input is valid: an invalid input fails with no call and no change; a
    valid one starts with the lookup of the ISBN. *)
Theorem add_reaches_store_iff_input_valid (St : Type) (h : handler St) (s : St)
  (title author isbn : string) (total_copies : Z) :
  Py.is_ascii title = true -> Py.is_ascii author = true ->
  Py.is_ascii isbn = true ->
  let out := run h (add_book_to_catalog title author isbn total_copies) s in
  (valid_book_input title author isbn total_copies = false ->
   fst (outcome out) = false /\ final_state out = s /\ trace out = [])
  /\ (valid_book_input title author isbn total_copies = true ->
      head (trace out)
      = Some (Event (get_book_by_isbn isbn) (fst (h _ (get_book_by_isbn isbn) s)))).
Proof.
  intros _ _ _ out. subst out. split.
  - apply add_rejects_invalid_input.
  - intros Hvalid.
    destruct (valid_book_input_passes _ _ _ _ Hvalid) as (V1 & V2 & V3 & V4 & V5 & V6).
    unfold add_book_to_catalog. rewrite V1, V2, V3, V4, V5, V6.
    cbn [run]. destruct (h _ (get_book_by_isbn isbn) s) as [existing s1].
    destruct (run h _ s1) as [[r s2] tr]. reflexivity.
Qed.

Lemma add_reaches_store_iff_input_valid_witness :
  Py.is_ascii "Dune" = true
  /\ Py.is_ascii "Frank Herbert" = true
  /\ Py.is_ascii "97804411727" = true
  /\ valid_book_input "Dune" "Frank Herbert" "97804411727" 4 = false
  /\ run Storage.handle (add_book_to_catalog "Dune" "Frank Herbert" "97804411727" 4)
       Sample.lending
     = ((false, "ISBN must be exactly 13 digits."), Sample.lending, [])
  /\ valid_book_input "Dune" "Frank Herbert" "9780441172719" 4 = true
  /\ head (trace (run Storage.handle
                    (add_book_to_catalog "Dune" "Frank Herbert" "9780441172719" 4)
                    Sample.lending))
     = Some (Event (get_book_by_isbn "9780441172719") (Some Sample.book_out)).
Proof.
  assert (Hbad : valid_book_input "Dune" "Frank Herbert" "97804411727" 4 = false)
    by reflexivity.
  assert (Hok : valid_book_input "Dune" "Frank Herbert" "9780441172719" 4 = true)
    by reflexivity.
  split; [reflexivity |]. split; [reflexivity |]. split; [reflexivity |].
  split; [exact Hbad |]. split; [reflexivity |]. split; [exact Hok |].
  exact (proj2 (add_reaches_store_iff_input_valid Storage.t Storage.handle
                  Sample.lending "Dune" "Frank Herbert" "9780441172719" 4
                  eq_refl eq_refl eq_refl) Hok).
Defined.

(** X13.  For a valid input (title and author ASCII text) whose ISBN is not
    in the catalog, the book is inserted with its title and author stripped of
    the blanks around them and with all its copies available; the add succeeds
    exactly when the insert does, and a refused insert is reported as a
    database error. *)
Theorem add_new_book_has_all_copies_available (St : Type) (h : handler St)
  (s s1 s2 : St) (title author isbn : string) (total_copies : Z) (ok : bool) :
  Py.is_ascii title = true -> Py.is_ascii author = true ->
  valid_book_input title author isbn total_copies = true ->
  h _ (get_book_by_isbn isbn) s = (None, s1) ->
  h _ (insert_book (Py.strip title) (Py.strip author) isbn total_copies
         total_copies) s1 = (ok, s2) ->
  run h (add_book_to_catalog title author isbn total_copies) s
  = ((ok,
      if ok then
        "Book " +:+ Py.dquote +:+ Py.strip title +:+ Py.dquote
        +:+ " has been successfully added to the catalog."
      else "Database error occurred while adding the book."),
     s2,
     [Event (get_book_by_isbn isbn) None;
      Event (insert_book (Py.strip title) (Py.strip author) isbn total_copies
               total_copies) ok]).
Proof.
  intros _ _ Hvalid Hnone Hinsert.
  destruct (valid_book_input_passes _ _ _ _ Hvalid) as (V1 & V2 & V3 & V4 & V5 & V6).
  unfold add_book_to_catalog. rewrite V1, V2, V3, V4, V5, V6.
  cbn [run]. rewrite Hnone. cbn [run]. rewrite Hinsert.
  destruct ok; reflexivity.
Qed.

Lemma add_new_book_has_all_copies_available_witness :
  Py.is_ascii "  Refactoring " = true
  /\ Py.is_ascii "Martin Fowler" = true
  /\ valid_book_input "  Refactoring " "Martin Fowler" "1111111111111" 2 = true
  /\ Book.title
       <$> Storage.book_by_isbn "1111111111111"
             (Storage.books
                (final_state
                   (run Storage.handle
                      (add_book_to_catalog "  Refactoring " "Martin Fowler"
                         "1111111111111" 2) Sample.lending)))
     = Some "Refactoring"
  /\ outcome (run Storage.handle
                (add_book_to_catalog "  Refactoring " "Martin Fowler"
                   "1111111111111" 2) Sample.first_write_fails)
     = (false, "Database error occurred while adding the book.").
Proof.
  assert (Hvalid : valid_book_input "  Refactoring " "Martin Fowler"
                     "1111111111111" 2 = true) by reflexivity.
  split; [reflexivity |]. split; [reflexivity |].
  split; [exact Hvalid |]. split; [vm_compute; reflexivity |].
  rewrite (add_new_book_has_all_copies_available Storage.t Storage.handle
             Sample.first_write_fails _ _ "  Refactoring " "Martin Fowler"
             "1111111111111" 2 false eq_refl eq_refl Hvalid eq_refl eq_refl).
  reflexivity.
Defined.

(** ** Borrowing and returning, again *)



(** Go through the calls of a run, keeping those of the kind asked for. *)
Ltac pick_event :=
  let Hin := fresh "Hin" in
  let Hkind := fresh "Hkind" in
  cbn [trace snd In]; intros Hin Hkind;
  repeat (destruct Hin as [<- | Hin]; [try (cbn in Hkind; discriminate Hkind) |]);
  try (destruct Hin).

(** X15.  The writes of a return: whatever the store answers, a run of
    [return_book_by_patron] that calls [update_book_availability] has made
    exactly these calls, in this order: the lookup of the book, the clock, the
    recording of the return date with a truthy answer, the lookup of the book
    again, and the update, as [(book_id, +1)]; and the book as read again, after
    the recording, had [available_copies < total_copies]. *)
Theorem return_increments_only_after_recording (St : Type) (h : handler St)
  (s : St) (patron_id : string) (book_id : Z) (e : event) :
  let out := run h (return_book_by_patron patron_id book_id) s in
  In e (trace out) ->
  is_update_book_availability e = true ->
  exists (book : Book.t) (now_dt : PyDate.datetime) (updated : row_answer)
         (fresh : Book.t) (ok : bool),
    trace out
    = [Event (get_book_by_id book_id) (Some book);
       Event datetime_now now_dt;
       Event (update_borrow_record_return_date patron_id book_id (Some now_dt))
         (Py.Returned updated);
       Event (get_book_by_id book_id) (Some fresh);
       Event (update_book_availability book_id 1) ok]
    /\ e = Event (update_book_availability book_id 1) ok
    /\ updated <> NoRow
    /\ Book.available_copies fresh < Book.total_copies fresh.
Proof.
  intros out. subst out. unfold return_book_by_patron.
  destruct (invalid_patron_id patron_id); [intros [] |].
  cbn [run]. destruct (h _ (get_book_by_id book_id) s) as [[book |] s1].
  2: { pick_event. }
  cbn [run]. destruct (h _ datetime_now s1) as [now_dt s2].
  cbn [run].
  destruct (h _ (update_borrow_record_return_date patron_id book_id (Some now_dt)) s2)
    as [[[| | row] | err] s3]; try solve [pick_event].
  all: cbn [run]; destruct (h _ (get_book_by_id book_id) s3) as [[fresh |] s4];
    try solve [pick_event].
  all: destruct (Book.available_copies fresh <? Book.total_copies fresh) eqn:Hroom;
    try solve [pick_event].
  all: cbn [run]; destruct (h _ (update_book_availability book_id 1) s4) as [ok s5];
    tests_to_Z.
  all: destruct ok; cbn [negb run]; pick_event;
    match goal with
    | |- context [Event (update_borrow_record_return_date _ _ _) (Py.Returned ?u)] =>
        eexists book, now_dt, u, fresh, _
    end;
    (split; [reflexivity |]); (split; [reflexivity |]);
    (split; [discriminate | exact Hroom]).
Qed.

Lemma return_increments_only_after_recording_witness :
  In (Event (update_book_availability 2 1) true)
    (trace (run Storage.handle (return_book_by_patron "222222" 2) Sample.lending))
  /\ is_update_book_availability (Event (update_book_availability 2 1) true) = true
  /\ exists (book : Book.t) (now_dt : PyDate.datetime) (updated : row_answer)
            (fresh : Book.t) (ok : bool),
       trace (run Storage.handle (return_book_by_patron "222222" 2) Sample.lending)
       = [Event (get_book_by_id 2) (Some book);
          Event datetime_now now_dt;
          Event (update_borrow_record_return_date "222222" 2 (Some now_dt))
            (Py.Returned updated);
          Event (get_book_by_id 2) (Some fresh);
          Event (update_book_availability 2 1) ok]
       /\ Book.available_copies fresh < Book.total_copies fresh.
Proof.
  assert (Hin : In (Event (update_book_availability 2 1) true)
                  (trace (run Storage.handle (return_book_by_patron "222222" 2)
                            Sample.lending)))
    by (vm_compute; tauto).
  split; [exact Hin |]. split; [reflexivity |].
  destruct (return_increments_only_after_recording Storage.t Storage.handle
              Sample.lending "222222" 2 _ Hin eq_refl)
    as (book & now_dt & updated & fresh & ok & Htrace & _ & _ & Hroom).
  exists book, now_dt, updated, fresh, ok. split; [exact Htrace | exact Hroom].
Defined.

(** ** Quoting a late fee, again *)

(** X16.  Every quote [calculate_late_fee_for_book] returns, whatever the
    store answers: the days overdue are not negative, the fee is the fee
    policy's fee for these days, between 0.00 and 15.00, and it is zero
    exactly when no day is overdue. *)
Theorem quote_is_consistent (St : Type) (h : handler St) (s : St)
  (patron_id : string) (book_id : Z) (quote : FeeQuote) :
  outcome (run h (calculate_late_fee_for_book patron_id book_id) s)
  = Py.Returned quote ->
  0 <= days_overdue quote
  /\ fee_amount quote = late_fee (days_overdue quote)
  /\ 0 <= fee_amount quote <= 1500
  /\ (fee_amount quote = 0 <-> days_overdue quote = 0).
Proof.
  assert (Hzero : forall status, let q := mk_quote 0 0 status in
             0 <= days_overdue q /\ fee_amount q = late_fee (days_overdue q)
             /\ 0 <= fee_amount q <= 1500
             /\ (fee_amount q = 0 <-> days_overdue q = 0))
    by (intros status; cbn; repeat split; lia).
  assert (Hfee : forall asof due status,
             let d := overdue_days asof due in
             let q := mk_quote (late_fee d) d status in
             0 <= days_overdue q /\ fee_amount q = late_fee (days_overdue q)
             /\ 0 <= fee_amount q <= 1500
             /\ (fee_amount q = 0 <-> days_overdue q = 0)).
  { intros asof due status d q. subst q. cbn [days_overdue fee_amount].
    pose proof (late_fee_nonneg d). pose proof (late_fee_cap d).
    pose proof (late_fee_zero d). subst d. unfold overdue_days in *.
    repeat split; lia. }
  unfold calculate_late_fee_for_book.
  destruct (invalid_patron_id patron_id); [intros [= <-]; apply Hzero |].
  cbn [run]. destruct (h _ (get_book_by_id book_id) s) as [[book |] s1];
    [| intros [= <-]; apply Hzero].
  cbn [run].
  destruct (h _ (update_borrow_record_return_date patron_id book_id None) s1)
    as [[[| | row] | []] s2];
    try (intros [= <-]; apply Hzero); try discriminate.
  destruct (negb (Py.get_truthy (Borrow.due_date row)));
    [intros [= <-]; apply Hzero |].
  destruct (PyDate.fromisoformat (default EmptyString (Borrow.due_date row)))
    as [due |]; [| discriminate].
  destruct (Py.get_truthy (Borrow.return_date row)).
  - destruct (PyDate.fromisoformat (default EmptyString (Borrow.return_date row)))
      as [returned |].
    + intros [= <-]. apply Hfee.
    + cbn [run]. destruct (h _ datetime_now s2) as [today s3].
      intros [= <-]. apply Hfee.
  - cbn [run]. destruct (h _ datetime_now s2) as [today s3].
    intros [= <-]. apply Hfee.
Qed.

Lemma quote_is_consistent_witness :
  outcome (run Storage.handle (calculate_late_fee_for_book "222222" 2) Sample.lending)
  = Py.Returned (mk_quote 250 5 "Not yet returned; fee calculated as of today.")
  /\ 250 = late_fee 5.
Proof.
  assert (Hrun : outcome (run Storage.handle (calculate_late_fee_for_book "222222" 2)
                            Sample.lending)
                 = Py.Returned
                     (mk_quote 250 5 "Not yet returned; fee calculated as of today."))
    by reflexivity.
  split; [exact Hrun |].
  exact (proj1 (proj2 (quote_is_consistent Storage.t Storage.handle Sample.lending
                         "222222" 2 _ Hrun))).
Defined.

(** X17.  [calculate_late_fee_for_book] only reads: whatever the store
    answers, it makes no insert, no availability update and no payment, and it
    calls [update_borrow_record_return_date] with no date only, so that no
    record is marked as returned. *)
Theorem quote_makes_no_write (St : Type) (h : handler St) (s : St)
  (patron_id : string) (book_id : Z) :
  never is_write (trace (run h (calculate_late_fee_for_book patron_id book_id) s)).
Proof.
  unfold calculate_late_fee_for_book.
  destruct (invalid_patron_id patron_id); [reflexivity |].
  cbn [run]. destruct (h _ (get_book_by_id book_id) s) as [[book |] s1];
    [| reflexivity].
  cbn [run].
  destruct (h _ (update_borrow_record_return_date patron_id book_id None) s1)
    as [[[| | row] | []] s2]; try reflexivity.
  destruct (negb (Py.get_truthy (Borrow.due_date row))); [reflexivity |].
  destruct (PyDate.fromisoformat (default EmptyString (Borrow.due_date row)));
    [| reflexivity].
  destruct (Py.get_truthy (Borrow.return_date row)).
  - destruct (PyDate.fromisoformat (default EmptyString (Borrow.return_date row)));
      [reflexivity |].
    cbn [run]. destruct (h _ datetime_now s2) as [today s3]. reflexivity.
  - cbn [run]. destruct (h _ datetime_now s2) as [today s3]. reflexivity.
Qed.

(** ** The fee policy, again *)

(** X18.  The fee in closed form: nothing up to the due date, 0.50 a day for
    the first seven days, then 1.00 a day from 3.50 on, and 15.00 from the
    nineteenth day on; until then each further day costs more. *)
Theorem late_fee_by_days (d : Z) :
  (d <= 0 -> late_fee d = 0)
  /\ (1 <= d <= 7 -> late_fee d = 50 * d)
  /\ (7 <= d <= 18 -> late_fee d = 350 + 100 * (d - 7))
  /\ (19 <= d -> late_fee d = 1500)
  /\ (0 <= d < 19 -> late_fee d < late_fee (d + 1)).
Proof.
  unfold late_fee.
  destruct (d <=? 0) eqn:E, (d + 1 <=? 0) eqn:E'; tests_to_Z; cbn zeta;
    repeat split; intros; lia.
Qed.

Lemma late_fee_by_days_witness :
  (1 <= 3 <= 7) /\ late_fee 3 = 150
  /\ (7 <= 18 <= 18) /\ late_fee 18 = 1450
  /\ (19 <= 19) /\ late_fee 19 = 1500
  /\ (0 <= 18 < 19) /\ late_fee 18 < late_fee 19.
Proof.
  assert (H3 : 1 <= 3 <= 7) by lia.
  assert (H18 : 7 <= 18 <= 18) by lia.
  assert (H19 : 19 <= 19) by lia.
  assert (Hup : 0 <= 18 < 19) by lia.
  split; [exact H3 |].
  split; [exact (proj1 (proj2 (late_fee_by_days 3)) H3) |].
  split; [exact H18 |].
  split; [exact (proj1 (proj2 (proj2 (late_fee_by_days 18))) H18) |].
  split; [exact H19 |].
  split; [exact (proj1 (proj2 (proj2 (proj2 (late_fee_by_days 19)))) H19) |].
  split; [exact Hup |].
  exact (proj2 (proj2 (proj2 (proj2 (late_fee_by_days 18)))) Hup).
Defined.

(** ** The message of a return *)

Lemma return_message_text (book : Book.t) (now_dt : PyDate.datetime)
  (row : Borrow.t) (due_text : string) (due : PyDate.datetime) :
  Borrow.due_date row = Some due_text -> Py.truthy due_text = true ->
  PyDate.fromisoformat due_text = Some due ->
  (PyDate.date now_dt <= PyDate.date due ->
   snd (return_message book now_dt (Row row))
   = "Returned " +:+ Py.dquote +:+ Book.title book +:+ Py.dquote
     +:+ " on time. No late fee.")
  /\ (PyDate.date due < PyDate.date now_dt ->
      snd (return_message book now_dt (Row row))
      = "Returned " +:+ Py.dquote +:+ Book.title book +:+ Py.dquote
        +:+ ". " +:+ pretty (PyDate.date now_dt - PyDate.date due)
        +:+ " day(s) overdue. Late fee: $"
        +:+ Py.format_2f (late_fee (PyDate.date now_dt - PyDate.date due))
        +:+ ".").
Proof.
  intros Hdue Ht Hp. unfold return_message.
  rewrite Hdue, (return_fee_parsed _ _ _ Ht Hp). unfold overdue_days.
  split; intros Hcmp.
  - replace (Z.max 0 (PyDate.date now_dt - PyDate.date due)) with 0 by lia.
    reflexivity.
  - replace (Z.max 0 (PyDate.date now_dt - PyDate.date due))
      with (PyDate.date now_dt - PyDate.date due) by lia.
    set (d := PyDate.date now_dt - PyDate.date due) in *.
    assert (Hd : (0 <? d) = true) by (apply Z.ltb_lt; lia).
    assert (Hf : (0 <? late_fee d) = true).
    { apply Z.ltb_lt. pose proof (late_fee_nonneg d).
      pose proof (proj1 (late_fee_zero d)). lia. }
    rewrite Hd, Hf. reflexivity.
Qed.

(** X19.  A return that succeeds reports on the book it first read, as of the
    clock it read, from the record the store answered. When that record has a
    readable due date, the message says "on time" exactly when today is not
    past the due date; otherwise it gives the days between the two dates and
    the fee policy's fee for them. A truthy answer that is not a record is
    reported as on time. *)
Theorem return_reports_late_iff_past_due (St : Type) (h : handler St) (s : St)
  (patron_id : string) (book_id : Z) (message : string) :
  outcome (run h (return_book_by_patron patron_id book_id) s)
  = Py.Returned (true, message) ->
  exists (book : Book.t) (now_dt : PyDate.datetime) (updated : row_answer),
    head (trace (run h (return_book_by_patron patron_id book_id) s))
    = Some (Event (get_book_by_id book_id) (Some book))
    /\ In (Event (update_borrow_record_return_date patron_id book_id (Some now_dt))
             (Py.Returned updated))
         (trace (run h (return_book_by_patron patron_id book_id) s))
    /\ (updated = NotADict ->
        message = "Returned " +:+ Py.dquote +:+ Book.title book +:+ Py.dquote
                  +:+ " on time. No late fee.")
    /\ (forall (row : Borrow.t) (due_text : string) (due : PyDate.datetime),
          updated = Row row ->
          Borrow.due_date row = Some due_text -> Py.truthy due_text = true ->
          PyDate.fromisoformat due_text = Some due ->
          (PyDate.date now_dt <= PyDate.date due ->
           message = "Returned " +:+ Py.dquote +:+ Book.title book +:+ Py.dquote
                     +:+ " on time. No late fee.")
          /\ (PyDate.date due < PyDate.date now_dt ->
              message
              = "Returned " +:+ Py.dquote +:+ Book.title book +:+ Py.dquote +:+ ". "
                +:+ pretty (PyDate.date now_dt - PyDate.date due)
                +:+ " day(s) overdue. Late fee: $"
                +:+ Py.format_2f (late_fee (PyDate.date now_dt - PyDate.date due))
                +:+ ".")).
Proof.
  unfold return_book_by_patron.
  destruct (invalid_patron_id patron_id); [discriminate |].
  cbn [run]. destruct (h _ (get_book_by_id book_id) s) as [[book |] s1];
    [| discriminate].
  cbn [run]. destruct (h _ datetime_now s1) as [now_dt s2].
  cbn [run].
  destruct (h _ (update_borrow_record_return_date patron_id book_id (Some now_dt)) s2)
    as [[[| | row] | err] s3]; try discriminate.
  all: cbn [run]; destruct (h _ (get_book_by_id book_id) s3) as [[fresh |] s4];
    [| discriminate].
  all: destruct (Book.available_copies fresh <? Book.total_copies fresh);
    [cbn [run]; destruct (h _ (update_book_availability book_id 1) s4) as [[] s5];
     [| discriminate] |].
  all: cbn [run negb outcome trace fst snd head]; intros Hout;
    match type of Hout with
    | Py.Returned (return_message _ _ ?u) = _ =>
        assert (Hsnd : message = snd (return_message book now_dt u))
          by (apply (f_equal (fun r => match r with
                                       | Py.Returned m => snd m
                                       | Py.Raised _ => EmptyString
                                       end)) in Hout;
              symmetry; exact Hout);
        exists book, now_dt, u
    end;
    (split; [reflexivity |]); (split; [cbn; tauto |]); split.
  all: try (intros Hu; first [discriminate Hu | rewrite Hsnd; reflexivity]).
  all: intros row' due_text due Hu Hdue Ht Hp;
    first [discriminate Hu
          | injection Hu as <-; rewrite Hsnd;
            exact (return_message_text book now_dt row due_text due Hdue Ht Hp)].
Qed.

Lemma return_reports_late_iff_past_due_witness :
  outcome (run Storage.handle (return_book_by_patron "222222" 2) Sample.lending)
  = Py.Returned
      (true, "Returned " +:+ Py.dquote +:+ "Clean Code" +:+ Py.dquote
             +:+ ". 5 day(s) overdue. Late fee: $2.50.")
  /\ exists book : Book.t,
       head (trace (run Storage.handle (return_book_by_patron "222222" 2)
                      Sample.lending))
       = Some (Event (get_book_by_id 2) (Some book)).
Proof.
  assert (Hrun : outcome (run Storage.handle (return_book_by_patron "222222" 2)
                            Sample.lending)
                 = Py.Returned
                     (true, "Returned " +:+ Py.dquote +:+ "Clean Code" +:+ Py.dquote
                            +:+ ". 5 day(s) overdue. Late fee: $2.50."))
    by reflexivity.
  split; [exact Hrun |].
  destruct (return_reports_late_iff_past_due Storage.t Storage.handle
              Sample.lending "222222" 2 _ Hrun) as (book & _ & _ & Hhead & _).
  exists book. exact Hhead.
Defined.

(** ** Operations in sequence, on the store *)

Lemma patron_borrow_count_cons (patron_id : string) (r : Borrow.t)
  (rs : list Borrow.t) :
  Storage.patron_borrow_count patron_id (r :: rs)
  = (if String.eqb (Borrow.patron_id r) patron_id && Storage.is_active r
     then 1 else 0)
    + Storage.patron_borrow_count patron_id rs.
Proof.
  unfold Storage.patron_borrow_count. cbn [List.filter].
  destruct (String.eqb (Borrow.patron_id r) patron_id && Storage.is_active r);
    cbn [length]; lia.
Qed.

Lemma patron_borrow_count_other (patron_id other : string) (book_id : Z)
  (borrow_date due_date : string) (rs : list Borrow.t) :
  other <> patron_id ->
  Storage.patron_borrow_count other
    (rs ++ [Borrow.mk patron_id book_id borrow_date (Some due_date) None])
  = Storage.patron_borrow_count other rs.
Proof.
  intros Hne. unfold Storage.patron_borrow_count.
  rewrite List.filter_app, length_app. cbn [List.filter Borrow.patron_id].
  assert (Hno : String.eqb patron_id other = false)
    by (apply String.eqb_neq; congruence).
  rewrite Hno. cbn. lia.
Qed.

(** Marking a return: either no active record of the patron for the book and
    nothing changes, or one record gets its return date, and the patron holds
    one active record less while the others hold as many as before. *)
Lemma mark_returned_counts (patron_id : string) (book_id : Z) (date : string)
  (rs : list Borrow.t) :
  match Storage.mark_returned patron_id book_id date rs with
  | (None, rs') => rs' = rs
  | (Some _, rs') =>
      forall q,
        Storage.patron_borrow_count q rs'
        = Storage.patron_borrow_count q rs
          - (if String.eqb patron_id q then 1 else 0)
  end.
Proof.
  induction rs as [| r rs IH]; [reflexivity |]. cbn [Storage.mark_returned].
  destruct (Storage.is_for patron_id book_id r && Storage.is_active r) eqn:Hhit.
  - intros q. rewrite !patron_borrow_count_cons.
    apply andb_true_iff in Hhit as [Hfor Hactive].
    unfold Storage.is_for in Hfor. apply andb_true_iff in Hfor as [Hp _].
    apply String.eqb_eq in Hp.
    cbn [Storage.set_return_date Borrow.patron_id Storage.is_active Borrow.return_date].
    rewrite Hactive, Hp, andb_false_r, andb_true_r.
    destruct (String.eqb patron_id q); lia.
  - destruct (Storage.mark_returned patron_id book_id date rs) as [[u |] rs'].
    + intros q. rewrite !patron_borrow_count_cons, IH. lia.
    + rewrite IH. reflexivity.
Qed.

Lemma mark_returned_finds (patron_id : string) (book_id : Z) (date : string)
  (rs : list Borrow.t) (r : Borrow.t) :
  In r rs -> Storage.is_for patron_id book_id r = true ->
  Storage.is_active r = true ->
  fst (Storage.mark_returned patron_id book_id date rs) <> None.
Proof.
  intros Hin Hfor Hactive. induction rs as [| r' rs IH]; [destruct Hin |].
  cbn [Storage.mark_returned].
  destruct (Storage.is_for patron_id book_id r' && Storage.is_active r') eqn:Hhit;
    [discriminate |].
  destruct Hin as [-> | Hin]; [rewrite Hfor, Hactive in Hhit; discriminate |].
  destruct (Storage.mark_returned patron_id book_id date rs) as [found rs'].
  exact (IH Hin).
Qed.

Lemma apply_keeps_limit (w : Storage.t) (st : step) :
  loans_within_limit w -> loans_within_limit (apply w st).
Proof.
  intros Hw. unfold apply. set (w0 := Storage.mk _ _ _ _).
  assert (Hw0 : loans_within_limit w0) by exact Hw. clearbody w0. clear Hw w.
  destruct (op st) as [title author isbn total_copies | patron_id book_id
                      | patron_id book_id].
  - add_cases w0 title author isbn total_copies ltac:(exact Hw0); exact Hw0.
  - borrow_cases w0 patron_id book_id; try exact Hw0; tests_to_Z.
    all: intros q; cbn [Storage.borrow_records];
      destruct (String.eqb_spec q patron_id) as [-> | Hne];
      [rewrite patron_borrow_count_new; lia
      | rewrite patron_borrow_count_other by exact Hne; apply Hw0].
  - return_cases w0 patron_id book_id; try exact Hw0.
    all: intros q; cbn [Storage.borrow_records];
      match goal with
      | Hm : Storage.mark_returned _ _ ?d _ = (_, ?rs) |- _ =>
          pose proof (mark_returned_counts patron_id book_id d
                        (Storage.borrow_records w0)) as Hc;
          rewrite Hm in Hc
      end;
      first [rewrite Hc; pose proof (Hw0 q); destruct (String.eqb patron_id q); lia
            | subst; apply Hw0].
Qed.

(** X20.  On a store where no patron holds more than five active borrow
    records, no sequence of adds, borrows and returns brings any patron above
    five, whatever the clock and whatever writes the store refuses. *)
Theorem no_patron_ever_exceeds_five_loans (w : Storage.t) (steps : list step) :
  loans_within_limit w -> Forall loans_within_limit (states w steps).
Proof.
  revert w. induction steps as [| st steps IH]; intros w Hw; cbn [states].
  - constructor.
  - constructor; [| apply IH]; apply apply_keeps_limit; exact Hw.
Qed.

Lemma no_patron_ever_exceeds_five_loans_witness :
  loans_within_limit Sample.at_limit
  /\ Forall loans_within_limit
       (states Sample.at_limit
          [Step Sample.clock [] (BorrowBook "123456" 2);
           Step Sample.clock [] (BorrowBook "654321" 2)]).
Proof.
  assert (Hstart : loans_within_limit Sample.at_limit).
  { intros q. unfold Sample.at_limit. cbn [Storage.borrow_records].
    unfold Storage.patron_borrow_count.
    match goal with
    | |- Z.of_nat (length ?l) <= 5 =>
        assert (Hlen : (length l <= 5)%nat)
          by (etransitivity; [apply List.filter_length_le | reflexivity])
    end.
    lia. }
  split; [exact Hstart |].
  exact (no_patron_ever_exceeds_five_loans Sample.at_limit _ Hstart).
Defined.

Lemma return_message_succeeds (book : Book.t) (now_dt : PyDate.datetime)
  (updated : row_answer) :
  return_message book now_dt updated
  = (true, snd (return_message book now_dt updated)).
Proof.
  unfold return_message.
  destruct (match updated with Row r => _ | _ => _ end) as [d f].
  destruct ((0 <? d) && (0 <? f)); reflexivity.
Qed.

(** X21.  On the store, with every write accepted: a patron who borrows a book
    whose counter is in bounds and then returns it, at any later time, leaves
    the counters of the catalog and the number of active loans of every patron
    as they were before the borrow. *)
Theorem borrow_then_return_restores_counts (w : Storage.t) (patron_id : string)
  (book_id : Z) (book : Book.t) (later_clock : PyDate.datetime) :
  invalid_patron_id patron_id = false ->
  Storage.books w !! book_id = Some book ->
  0 < Book.available_copies book <= Book.total_copies book ->
  Storage.patron_borrow_count patron_id (Storage.borrow_records w) < 5 ->
  Storage.write_ok w = [] ->
  let out1 := run Storage.handle (borrow_book_by_patron patron_id book_id) w in
  let w1 := final_state out1 in
  let out2 :=
    run Storage.handle (return_book_by_patron patron_id book_id)
      (Storage.mk (Storage.books w1) (Storage.borrow_records w1) later_clock []) in
  fst (outcome out1) = true
  /\ (exists message, outcome out2 = Py.Returned (true, message))
  /\ Storage.books (final_state out2) = Storage.books w
  /\ (forall q,
        Storage.patron_borrow_count q (Storage.borrow_records (final_state out2))
        = Storage.patron_borrow_count q (Storage.borrow_records w)).
Proof.
  intros Hvalid Hbook [Hcopy Hbound] Hcount Hwrites out1 w1 out2.
  assert (Hrun1 : out1
                  = ((true,
                      "Successfully borrowed " +:+ Py.dquote +:+ Book.title book
                      +:+ Py.dquote +:+ ". Due date: "
                      +:+ PyDate.strftime_ymd
                            (PyDate.date (PyDate.add_days (Storage.now w) 14))
                      +:+ "."),
                     Storage.mk
                       (alter (Storage.add_copies (-1)) book_id (Storage.books w))
                       (Storage.borrow_records w
                        ++ [Borrow.mk patron_id book_id
                              (PyDate.isoformat (Storage.now w))
                              (Some (PyDate.isoformat
                                       (PyDate.add_days (Storage.now w) 14)))
                              None])
                       (Storage.now w) [],
                     trace out1)).
  { subst out1. unfold borrow_book_by_patron. rewrite Hvalid. store_step.
    rewrite Hbook. apply Z.leb_gt in Hcopy. rewrite Hcopy. store_step.
    apply Z.leb_gt in Hcount. rewrite Hcount. store_step.
    unfold Storage.accepts, Storage.later. rewrite !Hwrites. cbn [hd tl].
    store_step. cbn [hd tl]. store_step. reflexivity. }
  subst w1 out2. rewrite Hrun1. cbn [final_state outcome fst snd].
  cbn [Storage.books Storage.borrow_records].
  set (loan := Borrow.mk patron_id book_id _ _ None).
  unfold return_book_by_patron. rewrite Hvalid. store_step.
  rewrite lookup_alter_eq, Hbook. cbn [fmap option_fmap option_map]. store_step.
  pose proof (mark_returned_counts patron_id book_id (PyDate.isoformat later_clock)
                (Storage.borrow_records w ++ [loan])) as Hmarked.
  pose proof (mark_returned_finds patron_id book_id (PyDate.isoformat later_clock)
                (Storage.borrow_records w ++ [loan]) loan) as Hfound.
  destruct (Storage.mark_returned patron_id book_id _ _) as [[updated |] rs].
  2: { exfalso. apply Hfound; [apply in_or_app; right; left; reflexivity | |
                               reflexivity | reflexivity].
       unfold Storage.is_for. subst loan. cbn [Borrow.patron_id Borrow.book_id].
       rewrite String.eqb_refl, Z.eqb_refl. reflexivity. }
  cbn [from_option]. store_step. rewrite lookup_alter_eq, Hbook.
  cbn [fmap option_fmap option_map Storage.add_copies Book.available_copies
       Book.total_copies].
  assert (Hroom : (Book.available_copies book + -1 <? Book.total_copies book) = true)
    by (apply Z.ltb_lt; lia).
  rewrite Hroom. store_step. unfold Storage.accepts. cbn [Storage.write_ok hd].
  store_step. split; [reflexivity |].
  split; [eexists; rewrite return_message_succeeds; reflexivity |]. split.
  - rewrite alter_alter_eq. apply alter_id. intros x Hx.
    rewrite Hbook in Hx. injection Hx as <-. destruct book.
    unfold Storage.add_copies.
    cbn [compose Book.id Book.title Book.author Book.isbn Book.total_copies
         Book.available_copies].
    f_equal. lia.
  - intros q. rewrite Hmarked. subst loan.
    destruct (String.eqb_spec patron_id q) as [<- | Hne].
    + rewrite patron_borrow_count_new. lia.
    + rewrite patron_borrow_count_other by congruence. lia.
Qed.

Lemma borrow_then_return_restores_counts_witness :
  invalid_patron_id "654321" = false
  /\ Storage.books Sample.lending !! 2 = Some Sample.book_in
  /\ 0 < Book.available_copies Sample.book_in <= Book.total_copies Sample.book_in
  /\ Storage.patron_borrow_count "654321" (Storage.borrow_records Sample.lending) < 5
  /\ Storage.books
       (final_state
          (run Storage.handle (return_book_by_patron "654321" 2)
             (Storage.mk
                (Storage.books
                   (final_state
                      (run Storage.handle (borrow_book_by_patron "654321" 2)
                         Sample.lending)))
                (Storage.borrow_records
                   (final_state
                      (run Storage.handle (borrow_book_by_patron "654321" 2)
                         Sample.lending)))
                (PyDate.add_days Sample.clock 3) [])))
     = Storage.books Sample.lending.
Proof.
  assert (Hvalid : invalid_patron_id "654321" = false) by reflexivity.
  assert (Hbook : Storage.books Sample.lending !! 2 = Some Sample.book_in)
    by reflexivity.
  assert (Hcopy : 0 < Book.available_copies Sample.book_in
                  <= Book.total_copies Sample.book_in) by (cbn; lia).
  assert (Hcount : Storage.patron_borrow_count "654321"
                     (Storage.borrow_records Sample.lending) < 5) by reflexivity.
  split; [exact Hvalid |]. split; [exact Hbook |]. split; [exact Hcopy |].
  split; [exact Hcount |].
  exact (proj1 (proj2 (proj2 (borrow_then_return_restores_counts Sample.lending
                                "654321" 2 Sample.book_in
                                (PyDate.add_days Sample.clock 3)
                                Hvalid Hbook Hcopy Hcount eq_refl)))).
Defined.

(** X22.  On the store: when a return finds the active record and the
    availability update is then refused, the return is reported as failed, yet
    the record keeps its return date (the patron holds one active loan less)
    and the counter is not incremented. *)
Theorem return_recorded_when_counter_update_fails (w : Storage.t)
  (patron_id : string) (book_id : Z) (book : Book.t) (updated : Borrow.t)
  (rs : list Borrow.t) (rest : list bool) :
  invalid_patron_id patron_id = false ->
  Storage.books w !! book_id = Some book ->
  Book.available_copies book < Book.total_copies book ->
  Storage.mark_returned patron_id book_id (PyDate.isoformat (Storage.now w))
    (Storage.borrow_records w) = (Some updated, rs) ->
  Storage.write_ok w = false :: rest ->
  let out := run Storage.handle (return_book_by_patron patron_id book_id) w in
  outcome out
  = Py.Returned (false, "Database error while updating book availability.")
  /\ Storage.books (final_state out) = Storage.books w
  /\ Storage.borrow_records (final_state out) = rs
  /\ Storage.patron_borrow_count patron_id rs
     = Storage.patron_borrow_count patron_id (Storage.borrow_records w) - 1
  /\ Borrow.return_date updated = Some (PyDate.isoformat (Storage.now w)).
Proof.
  intros Hvalid Hbook Hroom Hmark Hwrites out. subst out.
  pose proof (mark_returned_counts patron_id book_id
                (PyDate.isoformat (Storage.now w)) (Storage.borrow_records w))
    as Hcounts.
  rewrite Hmark in Hcounts. specialize (Hcounts patron_id).
  rewrite String.eqb_refl in Hcounts.
  assert (Hdate : Borrow.return_date updated
                  = Some (PyDate.isoformat (Storage.now w))).
  { clear -Hmark. revert updated rs Hmark.
    induction (Storage.borrow_records w) as [| r l IH]; intros updated rs;
      cbn [Storage.mark_returned]; [discriminate |].
    destruct (Storage.is_for patron_id book_id r && Storage.is_active r).
    - intros [= <- _]. reflexivity.
    - destruct (Storage.mark_returned patron_id book_id _ l) as [found rs'].
      intros [= -> _]. exact (IH _ _ eq_refl). }
  unfold return_book_by_patron. rewrite Hvalid. store_step.
  rewrite Hbook. store_step. rewrite Hmark. cbn [from_option]. store_step.
  rewrite Hbook. apply Z.ltb_lt in Hroom. rewrite Hroom. store_step.
  unfold Storage.accepts. cbn [Storage.write_ok]. rewrite Hwrites. cbn [hd].
  store_step. repeat split; assumption.
Qed.

Lemma return_recorded_when_counter_update_fails_witness :
  invalid_patron_id "222222" = false
  /\ Storage.books Sample.lending !! 2 = Some Sample.book_in
  /\ Book.available_copies Sample.book_in < Book.total_copies Sample.book_in
  /\ outcome
       (run Storage.handle (return_book_by_patron "222222" 2)
          (Storage.mk (Storage.books Sample.lending)
             (Storage.borrow_records Sample.lending) Sample.clock [false]))
     = Py.Returned (false, "Database error while updating book availability.")
  /\ Storage.patron_borrow_count "222222"
       (Storage.borrow_records
          (final_state
             (run Storage.handle (return_book_by_patron "222222" 2)
                (Storage.mk (Storage.books Sample.lending)
                   (Storage.borrow_records Sample.lending) Sample.clock [false]))))
     = 0.
Proof.
  assert (Hvalid : invalid_patron_id "222222" = false) by reflexivity.
  assert (Hbook : Storage.books Sample.lending !! 2 = Some Sample.book_in)
    by reflexivity.
  assert (Hroom : Book.available_copies Sample.book_in
                  < Book.total_copies Sample.book_in) by (cbn; lia).
  split; [exact Hvalid |]. split; [exact Hbook |]. split; [exact Hroom |].
  destruct (return_recorded_when_counter_update_fails
              (Storage.mk (Storage.books Sample.lending)
                 (Storage.borrow_records Sample.lending) Sample.clock [false])
              "222222" 2 Sample.book_in _ _ [] Hvalid Hbook Hroom eq_refl eq_refl)
    as (Hout & _ & Hrecords & Hcount & _).
  split; [exact Hout |]. rewrite Hrecords, Hcount. reflexivity.
Defined.
